(** * DiagramsModal: the Auto-Diagram dialog of big-AGI

    A shallow embedding of [src/modules/aifn/digrams/DiagramsModal.tsx]:
    the text-repair function [hotFixDiagramCode], the generation handler
    [handleGenerateNew], the commit handler [handleInsertAndClose] and the
    effect cleanup that aborts an in-flight generation.

    JavaScript strings are sequences of code units; they are embedded as
    [string], one [ascii] per code unit.  Every literal of the source is
    ASCII and no function below inspects the value of a unit beyond
    comparing it for equality. *)

From Stdlib Require Import String Ascii List Bool Arith Lia.
Import ListNotations.

Local Open Scope list_scope.
Local Open Scope string_scope.

(** ** The string built-ins used by the source *)

Module JsString.

(** The line feed, written ['\n'] in the source. *)
Definition LF : string := String "010"%char "".

(** [s.startsWith(p)]. *)
Fixpoint startsWith (p s : string) : bool :=
  match p, s with
  | "", _ => true
  | String _ _, "" => false
  | String a p', String b s' => Ascii.eqb a b && startsWith p' s'
  end.

(** [s.includes(p)]: [p] occurs in [s] at some position. *)
Fixpoint includes (p s : string) : bool :=
  startsWith p s ||
  match s with
  | "" => false
  | String _ s' => includes p s'
  end.

(** [s.indexOf(p)], with [None] for the [-1] of JavaScript. *)
Fixpoint indexOf (p s : string) : option nat :=
  if startsWith p s then Some 0
  else match s with
       | "" => None
       | String _ s' => option_map S (indexOf p s')
       end.

(** The scan of [s.replaceAll(p, r)] for a non-empty search string [p]:
    positions are visited from left to right; at a position where [p]
    matches, [r] is emitted and the scan resumes [length p] units
    further (matches never overlap); elsewhere the unit is copied.
    [skip] counts the units of the current match still to be passed. *)
Fixpoint replaceAll_scan (p r : string) (skip : nat) (s : string) : string :=
  match s with
  | "" => ""
  | String c s' =>
      match skip with
      | S k => replaceAll_scan p r k s'
      | O =>
          if startsWith p s
          then r ++ replaceAll_scan p r (String.length p - 1) s'
          else String c (replaceAll_scan p r 0 s')
      end
  end.

(** The empty search string matches before every unit and at the end. *)
Fixpoint replaceAll_empty (r s : string) : string :=
  match s with
  | "" => r
  | String c s' => r ++ String c (replaceAll_empty r s')
  end.

(** [s.replaceAll(p, r)] for a string pattern [p] and a replacement [r]
    that holds no ['$'] (so that [r] is inserted literally, as is the
    case for both replacements of the source). *)
Definition replaceAll (p r s : string) : string :=
  match p with
  | "" => replaceAll_empty r s
  | String _ _ => replaceAll_scan p r 0 s
  end.

(** Some proper, non-empty suffix of [q] is a prefix of [p]. *)
Fixpoint overlaps (q p : string) : bool :=
  match q with
  | "" => false
  | String _ q' => startsWith q p || overlaps q' p
  end.

(** [p] has a border: a proper non-empty suffix that is also a prefix,
    so that two occurrences of [p] can overlap. *)
Definition bordered (p : string) : bool :=
  match p with
  | "" => false
  | String _ p' => overlaps p' p
  end.

End JsString.

Import JsString.

(** ** The text-repair function (source lines 40-48) *)

Definition START_MARK : string := "@start".
Definition FENCE : string := "```".
Definition MINDMAP_END : string := "@endmindmap".
Definition MINDMAP_UML_END : string := "@endmindmap" ++ LF ++ "@enduml".
Definition EMPTY_FENCE : string := "```" ++ LF ++ "```".

(** [hotFixDiagramCode(llmCode)]. *)
Definition hotFixDiagramCode (llmCode : string) : string :=
  (* put the code in markdown, if missing *)
  let llmCode :=
    if startsWith START_MARK llmCode
    then "```" ++ LF ++ llmCode ++ LF ++ "```"
    else llmCode in
  (* fix generation mistakes *)
  replaceAll EMPTY_FENCE FENCE
    (replaceAll MINDMAP_UML_END MINDMAP_END llmCode).

(** The three steps as the specification names them, for comparison. *)
Definition fenceWrap (s : string) : string :=
  if startsWith "@start" s then "```" ++ LF ++ s ++ LF ++ "```" else s.
Definition mindmapCollapse (s : string) : string :=
  replaceAll ("@endmindmap" ++ LF ++ "@enduml") "@endmindmap" s.
Definition emptyFenceCollapse (s : string) : string :=
  replaceAll ("```" ++ LF ++ "```") "```" s.

(** ** The collaborators of the dialog

    None of them is under src/; each is embedded through the interface the
    dialog consumes. *)

(** Modelled from the spec: the generator (type [DLLM] of the language-model
    store), of which the dialog reads the identifier only. *)
Module DLLM.
Record t : Type := { id : string }.
End DLLM.

(** Modelled from the spec: a message of the conversation store (type
    [DMessage] of [store-chats]): role tag, text body and origin tag.
    Roles are the strings the source compares them with. *)
Module DMessage.
Record t : Type := {
  role : string;
  text : string;
  originLLM : option string
}.

Definition with_originLLM (o : string) (m : t) : t :=
  {| role := role m; text := text m; originLLM := Some o |}.
End DMessage.

(** Modelled from the spec: [createDMessage(role, text)] of [store-chats]
    builds a message with that role and text and no origin tag yet. *)
Definition createDMessage (role text : string) : DMessage.t :=
  {| DMessage.role := role; DMessage.text := text; DMessage.originLLM := None |}.

(** Modelled from the spec: a conversation of the store, with its
    identifier and its ordered message list. *)
Module DConversation.
Record t : Type := {
  id : string;
  messages : list DMessage.t
}.
End DConversation.

(** An [AbortController] is known by its identity: the dialog only creates
    one, stores it, hands its signal to the streaming call and calls
    [abort()] on it. *)
Definition AbortController : Type := nat.

(** The value caught by [catch (error: any)]: the handler reads
    [error?.name] and [error?.message], each of which may be undefined. *)
Module JsError.
Record t : Type := {
  name : option string;
  message : option string
}.
End JsError.

(** Modelled from the spec: one delivery of the streaming call to its
    callback, which destructures [textSoFar] (possibly undefined) from it. *)
Module StreamingUpdate.
Record t : Type := { textSoFar : option string }.
End StreamingUpdate.

(** How the awaited promise of the streaming call settles; [None] stands
    for a thrown [null] or [undefined]. *)
Inductive Settled : Type :=
| Resolved
| Rejected (error : option JsError.t).

(** Modelled from the spec: the behaviour of the streaming service during
    one call: the deliveries it makes to the callback, in order, and how
    the call settles.  A call that never settles has no exit path and is
    not represented. *)
Record StreamRun : Type := {
  updates : list StreamingUpdate.t;
  settled : Settled
}.

(** Used by the callers to setup the diagram session (source lines 32-36). *)
Record DiagramConfig : Type := {
  conversationId : string;
  messageId : string;
  text : string
}.

(** JavaScript truthiness of a [string | null] value. *)
Definition truthy (v : option string) : bool :=
  match v with
  | Some (String _ _) => true
  | _ => false
  end.

Definition DIAGRAM_ACTOR_PREFIX : string := "diagram".

Section Dialog.

(** Declared in [diagrams.data], which is not under src/: the two option
    types, the prompt type and the prompt builder. *)
Variables DiagramType DiagramLanguage Prompt : Type.
Variable bigDiagramPrompt :
  DiagramType -> DiagramLanguage -> string -> string -> string -> Prompt.

(** The state of the component (source lines 54-65): the values of its
    [useState] cells and of the hooks it reads.  [null] is [None]; for
    [errorMessage], so is [undefined]. *)
Record DialogState : Type := {
  showOptions : bool;
  diagramCode : option string;
  diagramType : option DiagramType;
  diagramLanguage : option DiagramLanguage;
  customInstruction : string;
  errorMessage : option string;
  abortController : option AbortController;
  diagramLlm : option DLLM.t
}.

(** What a handler does, in order: calls of the state setters and calls
    into the collaborators. *)
Inductive Action : Type :=
| SetDiagramCode (v : option string)
| SetErrorMessage (v : option string)
| SetAbortController (v : option AbortController)
| LlmStreamingChatGenerate (llmId : string) (prompt : Prompt)
    (signal : AbortController)
| Abort (c : AbortController)
| AppendMessage (conversationId : string) (m : DMessage.t)
| OnClose.

(** Handlers run in a writer monad over the actions they perform.  All
    they read is the state captured by the render that created them. *)
Definition Cmd (A : Type) : Type := (A * list Action)%type.

Definition ret {A : Type} (a : A) : Cmd A := (a, []).

Definition bind {A B : Type} (m : Cmd A) (k : A -> Cmd B) : Cmd B :=
  let (a, l1) := m in
  let (b, l2) := k a in
  (b, (l1 ++ l2)%list).

Definition emit (a : Action) : Cmd unit := (tt, [a]).

Definition actions {A : Type} (m : Cmd A) : list Action := snd m.

Notation "x <- m ;; k" := (bind m (fun x => k))
  (at level 61, m at next level, right associativity).
Notation "m ;; k" := (bind m (fun _ => k))
  (at level 61, right associativity).

Definition setDiagramCode (v : option string) : Cmd unit :=
  emit (SetDiagramCode v).
Definition setErrorMessage (v : option string) : Cmd unit :=
  emit (SetErrorMessage v).
Definition setAbortController (v : option AbortController) : Cmd unit :=
  emit (SetAbortController v).
Definition abort (c : AbortController) : Cmd unit := emit (Abort c).
Definition appendMessage (cid : string) (m : DMessage.t) : Cmd unit :=
  emit (AppendMessage cid m).
Definition onClose : Cmd unit := emit OnClose.

(** The effect of an action on the component state. *)
Definition apply (st : DialogState) (a : Action) : DialogState :=
  match a with
  | SetDiagramCode v =>
      {| showOptions := showOptions st; diagramCode := v;
         diagramType := diagramType st;
         diagramLanguage := diagramLanguage st;
         customInstruction := customInstruction st;
         errorMessage := errorMessage st;
         abortController := abortController st;
         diagramLlm := diagramLlm st |}
  | SetErrorMessage v =>
      {| showOptions := showOptions st; diagramCode := diagramCode st;
         diagramType := diagramType st;
         diagramLanguage := diagramLanguage st;
         customInstruction := customInstruction st;
         errorMessage := v;
         abortController := abortController st;
         diagramLlm := diagramLlm st |}
  | SetAbortController v =>
      {| showOptions := showOptions st; diagramCode := diagramCode st;
         diagramType := diagramType st;
         diagramLanguage := diagramLanguage st;
         customInstruction := customInstruction st;
         errorMessage := errorMessage st;
         abortController := v;
         diagramLlm := diagramLlm st |}
  | LlmStreamingChatGenerate _ _ _ | Abort _ | AppendMessage _ _ | OnClose =>
      st
  end.

Definition exec (st : DialogState) (l : list Action) : DialogState :=
  fold_left apply l st.

(** Classifiers of actions, to count them in a trace. *)
Definition is_llmCall (a : Action) : bool :=
  match a with LlmStreamingChatGenerate _ _ _ => true | _ => false end.
Definition is_abort (a : Action) : bool :=
  match a with Abort _ => true | _ => false end.
Definition is_clearAbortController (a : Action) : bool :=
  match a with SetAbortController None => true | _ => false end.
Definition is_setter (a : Action) : bool :=
  match a with
  | SetDiagramCode _ | SetErrorMessage _ | SetAbortController _ => true
  | _ => false
  end.
Definition is_storeOrClose (a : Action) : bool :=
  match a with AppendMessage _ _ | OnClose => true | _ => false end.

Definition count (f : Action -> bool) (l : list Action) : nat :=
  List.length (filter f l).

(** *** handleGenerateNew (source lines 74-108) *)

(** The callback given to the streaming call (line 98):
    [({ textSoFar }) => textSoFar && setDiagramCode(diagramCode = textSoFar)].
    It returns the new value of the local variable [diagramCode]. *)
Definition onUpdate (diagramCode : string) (u : StreamingUpdate.t)
  : Cmd string :=
  if truthy (StreamingUpdate.textSoFar u)
  then match StreamingUpdate.textSoFar u with
       | Some textSoFar => setDiagramCode (Some textSoFar) ;; ret textSoFar
       | None => ret diagramCode
       end
  else ret diagramCode.

Fixpoint deliver (diagramCode : string) (us : list StreamingUpdate.t)
  : Cmd string :=
  match us with
  | [] => ret diagramCode
  | u :: us' =>
      diagramCode' <- onUpdate diagramCode u ;;
      deliver diagramCode' us'
  end.

(** Modelled from the spec: [await llmStreamingChatGenerate(...)] of
    [llm.client]: the call is issued, the callback receives the
    deliveries of [run], and the call settles as [run] says.  The result
    carries the local variable the callback assigns. *)
Definition llmStreamingChatGenerate (llmId : string) (prompt : Prompt)
    (signal : AbortController) (run : StreamRun) (diagramCode : string)
  : Cmd (string * Settled) :=
  emit (LlmStreamingChatGenerate llmId prompt signal) ;;
  diagramCode' <- deliver diagramCode (updates run) ;;
  ret (diagramCode', settled run).

(** [error?.name !== 'AbortError' ? error?.message : 'Interrupted.'] *)
Definition catchMessage (error : option JsError.t) : option string :=
  match error with
  | Some e =>
      match JsError.name e with
      | Some n => if n =? "AbortError" then Some "Interrupted."
                  else JsError.message e
      | None => JsError.message e
      end
  | None => None
  end.

(** The [catch] and [finally] blocks (lines 100-106), entered when the
    awaited call settles with the local variable at [diagramCode]. *)
Definition catchFinally (diagramCode : string) (outcome : Settled)
  : Cmd unit :=
  match outcome with
  | Resolved => ret tt
  | Rejected error =>
      setDiagramCode None ;;
      setErrorMessage (catchMessage error)
  end ;;
  setDiagramCode (Some (hotFixDiagramCode diagramCode)) ;;
  setAbortController None.

(** [handleGenerateNew] as created by the render of state [st], run
    against the store content [conversations]; [stepAbortController] is
    the controller that [new AbortController()] returns and [run] the
    behaviour of the streaming service if it gets called. *)
Definition handleGenerateNew (props : DiagramConfig) (st : DialogState)
    (conversations : list DConversation.t)
    (stepAbortController : AbortController) (run : StreamRun) : Cmd unit :=
  match abortController st with
  | Some _ => ret tt
  | None =>
      let conversation :=
        find (fun c => DConversation.id c =? conversationId props)
             conversations in
      match diagramType st, diagramLanguage st, diagramLlm st, conversation with
      | Some dType, Some dLanguage, Some llm, Some conv =>
          let systemMessage := hd_error (DConversation.messages conv) in
          match systemMessage with
          | Some sys =>
              if DMessage.role sys =? "system" then
                setErrorMessage None ;;
                let diagramCode := "Loading..." in
                setDiagramCode (Some diagramCode) ;;
                setAbortController (Some stepAbortController) ;;
                let diagramPrompt :=
                  bigDiagramPrompt dType dLanguage (DMessage.text sys)
                    (text props) (customInstruction st) in
                r <- llmStreamingChatGenerate (DLLM.id llm) diagramPrompt
                       stepAbortController run diagramCode ;;
                catchFinally (fst r) (snd r)
              else
                setErrorMessage
                  (Some "No System message in this conversation")
          | None =>
              setErrorMessage (Some "No System message in this conversation")
          end
      | _, _, _, _ =>
          setErrorMessage
            (Some "Invalid diagram Type, Language, Generator, or conversation.")
      end
  end.

(** The text the local variable [diagramCode] holds when the call
    settles: the last truthy [textSoFar], or the placeholder. *)
Definition lastText (run : StreamRun) : string :=
  fold_left
    (fun acc u => if truthy (StreamingUpdate.textSoFar u)
                  then match StreamingUpdate.textSoFar u with
                       | Some t => t
                       | None => acc
                       end
                  else acc)
    (updates run) "Loading...".

(** *** Auto-abort on unmount (source lines 112-119) *)

(** The cleanup returned by the effect; [captured] is the controller of
    the render that installed it. *)
Definition autoAbortCleanup (captured : option AbortController) : Cmd unit :=
  match captured with
  | Some c => abort c ;; setAbortController None
  | None => ret tt
  end.

(** The effect depends on [abortController], so the cleanup installed in
    state [st] captures the controller of [st]; React runs it when the
    component is destroyed. *)
Definition unmount (st : DialogState) : Cmd unit :=
  autoAbortCleanup (abortController st).

(** *** handleInsertAndClose (source lines 122-132) *)

Definition handleInsertAndClose (props : DiagramConfig) (st : DialogState)
  : Cmd unit :=
  if negb (truthy (diagramCode st)) then
    setErrorMessage (Some "Nothing to add to the conversation.")
  else
    match diagramCode st with
    | None => ret tt
    | Some code =>
        let diagramMessage := createDMessage "assistant" code in
        let diagramMessage :=
          DMessage.with_originLLM
            (DIAGRAM_ACTOR_PREFIX ++
               match diagramLlm st with
               | Some llm =>
                   if truthy (Some (DLLM.id llm))
                   then "-" ++ DLLM.id llm
                   else ""
               | None => ""
               end)
            diagramMessage in
        appendMessage (conversationId props) diagramMessage ;;
        onClose
    end.

(** *** The two buttons (source lines 208 and 220-228) *)

(** [disabled={!diagramCode || !!abortController}] of "Add To Chat". *)
Definition addToChatDisabled (st : DialogState) : bool :=
  negb (truthy (diagramCode st)) ||
  match abortController st with Some _ => true | None => false end.

(** [onClick={abortController ? () => abortController.abort() : handleGenerateNew}] *)
Definition generateButtonOnClick (props : DiagramConfig) (st : DialogState)
    (conversations : list DConversation.t)
    (stepAbortController : AbortController) (run : StreamRun) : Cmd unit :=
  match abortController st with
  | Some c => abort c
  | None => handleGenerateNew props st conversations stepAbortController run
  end.

End Dialog.

Arguments showOptions {DiagramType DiagramLanguage}.
Arguments diagramCode {DiagramType DiagramLanguage}.
Arguments diagramType {DiagramType DiagramLanguage}.
Arguments diagramLanguage {DiagramType DiagramLanguage}.
Arguments customInstruction {DiagramType DiagramLanguage}.
Arguments errorMessage {DiagramType DiagramLanguage}.
Arguments abortController {DiagramType DiagramLanguage}.
Arguments diagramLlm {DiagramType DiagramLanguage}.
Arguments SetDiagramCode {Prompt}.
Arguments SetErrorMessage {Prompt}.
Arguments SetAbortController {Prompt}.
Arguments LlmStreamingChatGenerate {Prompt}.
Arguments Abort {Prompt}.
Arguments AppendMessage {Prompt}.
Arguments OnClose {Prompt}.
Arguments actions {Prompt A}.
Arguments apply {DiagramType DiagramLanguage Prompt}.
Arguments exec {DiagramType DiagramLanguage Prompt}.
Arguments is_llmCall {Prompt}.
Arguments is_abort {Prompt}.
Arguments is_clearAbortController {Prompt}.
Arguments is_setter {Prompt}.
Arguments is_storeOrClose {Prompt}.
Arguments count {Prompt}.
Arguments catchFinally {Prompt}.
Arguments handleGenerateNew {DiagramType DiagramLanguage Prompt}.
Arguments unmount {DiagramType DiagramLanguage Prompt}.
Arguments autoAbortCleanup {Prompt}.
Arguments handleInsertAndClose {DiagramType DiagramLanguage Prompt}.
Arguments addToChatDisabled {DiagramType DiagramLanguage}.
Arguments generateButtonOnClick {DiagramType DiagramLanguage Prompt}.
Arguments Build_DialogState {DiagramType DiagramLanguage}.

(** ** What the component renders (source lines 135-234)

    The returned element, reduced to the parts whose presence or content
    depends on the state. *)

Section Presentation.

Variables DiagramType DiagramLanguage : Type.

Record View : Type := {
  (** the options grid (line 154) *)
  optionsGrid : bool;
  (** the text of [InlineError] (line 176), when rendered *)
  errorBanner : option string;
  (** the [CircularProgress] (line 178) *)
  progress : bool;
  (** the text given to [BlocksRenderer] (lines 182-200), when rendered *)
  renderedText : option string;
  (** the [Divider] (line 202) *)
  divider : bool;
  (** [disabled] of "Add To Chat" (line 208) *)
  addDisabled : bool;
  (** [disabled] of the generate button (line 222) *)
  generateDisabled : bool;
  (** the label of the generate button (line 227) *)
  generateLabel : string
}.

Definition render (st : DialogState DiagramType DiagramLanguage) : View :=
  let inFlight :=
    match abortController st with Some _ => true | None => false end in
  {| optionsGrid := showOptions st;
     (* errorMessage && <InlineError error={errorMessage} /> *)
     errorBanner :=
       if truthy (errorMessage st) then errorMessage st else None;
     (* !showOptions && !!abortController *)
     progress := negb (showOptions st) && inFlight;
     (* !!diagramCode && (!abortController || showOptions) *)
     renderedText :=
       if truthy (diagramCode st) && (negb inFlight || showOptions st)
       then diagramCode st else None;
     (* !diagramCode && <Divider /> *)
     divider := negb (truthy (diagramCode st));
     addDisabled := addToChatDisabled st;
     (* disabled={!diagramLlm} *)
     generateDisabled :=
       match diagramLlm st with Some _ => false | None => true end;
     (* abortController ? 'Stop' : diagramCode ? 'Regenerate' : 'Generate' *)
     generateLabel :=
       if inFlight then "Stop"
       else if truthy (diagramCode st) then "Regenerate" else "Generate" |}.

End Presentation.

Arguments render {DiagramType DiagramLanguage}.

(** ** A sample session

    Concrete collaborators and states on which the statements below are
    evaluated: the option types are the strings of the source's defaults
    (['auto'], ['plantuml']) and a prompt is the list of the texts it is
    built from. *)

Module Sample.

Definition Prompt : Type := list string.

Definition bigDiagramPrompt
    (diagramType diagramLanguage systemText subject customInstruction : string)
  : Prompt :=
  [diagramType; diagramLanguage; systemText; subject; customInstruction].

Definition props : DiagramConfig :=
  {| conversationId := "conv-1"; messageId := "msg-7";
     text := "How does login work?" |}.

Definition conversations : list DConversation.t :=
  [ {| DConversation.id := "conv-0"; DConversation.messages := [] |};
    {| DConversation.id := "conv-1";
       DConversation.messages :=
         [ createDMessage "system" "You are a helpful assistant.";
           createDMessage "user" "How does login work?" ] |} ].

Definition llm : DLLM.t := {| DLLM.id := "gpt-4" |}.

(** The state of a freshly mounted dialog (source lines 54-60) with a
    generator selected. *)
Definition idle : DialogState string string :=
  {| showOptions := true; diagramCode := None;
     diagramType := Some "auto"; diagramLanguage := Some "plantuml";
     customInstruction := ""; errorMessage := None;
     abortController := None; diagramLlm := Some llm |}.

(** The same dialog while the generation with controller [5] streams. *)
Definition generating : DialogState string string :=
  {| showOptions := true; diagramCode := Some "Loading...";
     diagramType := Some "auto"; diagramLanguage := Some "plantuml";
     customInstruction := ""; errorMessage := None;
     abortController := Some 5; diagramLlm := Some llm |}.

(** In flight, and the generator has meanwhile gone from the selection. *)
Definition generatingNoLlm : DialogState string string :=
  {| showOptions := true; diagramCode := Some "Loading...";
     diagramType := Some "auto"; diagramLanguage := Some "plantuml";
     customInstruction := ""; errorMessage := None;
     abortController := Some 5; diagramLlm := None |}.

Definition noLlm : DialogState string string :=
  {| showOptions := true; diagramCode := None;
     diagramType := Some "auto"; diagramLanguage := Some "plantuml";
     customInstruction := ""; errorMessage := None;
     abortController := None; diagramLlm := None |}.

(** A finished result on screen. *)
Definition completed (code : string) (l : option DLLM.t)
  : DialogState string string :=
  {| showOptions := true; diagramCode := Some code;
     diagramType := Some "auto"; diagramLanguage := Some "plantuml";
     customInstruction := ""; errorMessage := None;
     abortController := None; diagramLlm := l |}.

Definition upd (t : string) : StreamingUpdate.t :=
  {| StreamingUpdate.textSoFar := Some t |}.

(** Two deliveries, then success. *)
Definition runOk : StreamRun :=
  {| updates := [upd ("@startuml" ++ LF ++ "A->B");
                 upd ("@startuml" ++ LF ++ "A->B" ++ LF ++ "@enduml")];
     settled := Resolved |}.

(** Success without any text. *)
Definition runSilent : StreamRun :=
  {| updates := [upd ""; {| StreamingUpdate.textSoFar := None |}];
     settled := Resolved |}.

(** One delivery, then the rejection an aborted request produces. *)
Definition runAborted : StreamRun :=
  {| updates := [upd ("@startuml" ++ LF ++ "A->B")];
     settled :=
       Rejected (Some {| JsError.name := Some "AbortError";
                         JsError.message := Some "The user aborted a request." |}) |}.

(** A failure of the service before any delivery. *)
Definition runFailed : StreamRun :=
  {| updates := [];
     settled :=
       Rejected (Some {| JsError.name := Some "Error";
                         JsError.message := Some "503 Service Unavailable" |}) |}.

Definition generate (st : DialogState string string) (run : StreamRun)
  : list (Action Prompt) :=
  actions (handleGenerateNew bigDiagramPrompt props st conversations 5 run).

Definition commit (st : DialogState string string) : list (Action Prompt) :=
  actions (handleInsertAndClose props st).

End Sample.

(** * Properties *)

(** ** Facts about the string built-ins *)

Module JsStringFacts.

Lemma append_empty_r (s : string) : s ++ "" = s.
Proof. induction s as [|c s IH]; simpl; [reflexivity | now rewrite IH]. Qed.

Lemma append_assoc (a b c : string) : (a ++ b) ++ c = a ++ (b ++ c).
Proof. induction a as [|x a IH]; simpl; [reflexivity | now rewrite IH]. Qed.

Lemma length_append (a b : string) :
  String.length (a ++ b) = String.length a + String.length b.
Proof. induction a as [|x a IH]; simpl; [reflexivity | now rewrite IH]. Qed.

Lemma startsWith_cons (a b : ascii) (p s : string) :
  startsWith (String a p) (String b s) = true <-> a = b /\ startsWith p s = true.
Proof.
  simpl. rewrite andb_true_iff, Ascii.eqb_eq. reflexivity.
Qed.

Lemma startsWith_append (p y : string) : startsWith p (p ++ y) = true.
Proof.
  induction p as [|a p IH]; simpl; [reflexivity|].
  now rewrite Ascii.eqb_refl.
Qed.

Lemma startsWith_length (p s : string) :
  startsWith p s = true -> String.length p <= String.length s.
Proof.
  revert s; induction p as [|a p IH]; intros [|b s] H; simpl in *;
    try lia; try discriminate.
  apply andb_true_iff in H as [_ H]. apply IH in H. lia.
Qed.

Lemma startsWith_extend (p a b : string) :
  startsWith p a = true -> startsWith p (a ++ b) = true.
Proof.
  revert a; induction p as [|x p IH]; intros [|y a] H; simpl in *;
    try reflexivity; try discriminate.
  apply andb_true_iff in H as [E H]. rewrite E. simpl. now apply IH.
Qed.

Lemma startsWith_truncate (p a b : string) :
  startsWith p (a ++ b) = true -> String.length p <= String.length a ->
  startsWith p a = true.
Proof.
  revert a; induction p as [|x p IH]; intros [|y a] H L; simpl in *;
    try reflexivity; try lia.
  apply andb_true_iff in H as [E H]. rewrite E. simpl.
  apply IH; [assumption | lia].
Qed.

(** A match that starts inside [x] and ends beyond it leaves a non-empty
    rest of the pattern at the head of what follows [x]. *)
Lemma startsWith_straddle (x q z : string) :
  startsWith q (x ++ z) = true -> String.length x < String.length q ->
  exists q', q = x ++ q' /\ q' <> "" /\ startsWith q' z = true.
Proof.
  revert q; induction x as [|d x IH]; intros q H L; simpl in *.
  - exists q. repeat split; [|assumption].
    destruct q; [simpl in L; lia | discriminate].
  - destruct q as [|c q]; [simpl in L; lia|].
    apply startsWith_cons in H as [-> H].
    destruct (IH q H) as (q' & -> & Hne & Hq'); [simpl in L; lia|].
    exists q'. auto.
Qed.

Lemma overlaps_suffix (a q p : string) :
  q <> "" -> startsWith q p = true -> overlaps (a ++ q) p = true.
Proof.
  intros Hq H. induction a as [|c a IH]; simpl.
  - destruct q as [|c q]; [congruence|].
    cbn [overlaps]. rewrite H. reflexivity.
  - rewrite IH. apply orb_true_r.
Qed.

(** Without a border, no match of [p] straddles the start of an
    occurrence of [p]. *)
Lemma unbordered_no_straddle (p x y : string) :
  bordered p = false -> x <> "" -> String.length x < String.length p ->
  startsWith p (x ++ p ++ y) = false.
Proof.
  intros Hb Hx L.
  destruct (startsWith p (x ++ p ++ y)) eqn:E; [|reflexivity].
  destruct (startsWith_straddle x p (p ++ y) E L) as (q' & Hp & Hq' & Hs).
  subst p.
  assert (Hs' : startsWith q' (x ++ q') = true).
  { apply startsWith_truncate with (b := y); [assumption|].
    rewrite length_append. lia. }
  destruct x as [|c x]; [congruence|].
  unfold bordered in Hb. cbn [append] in Hb.
  pose proof (overlaps_suffix x q' (String c x ++ q') Hq' Hs') as O.
  cbn [append] in O. congruence.
Qed.

Lemma scan_skip (p r x y : string) :
  replaceAll_scan p r (String.length x) (x ++ y) = replaceAll_scan p r 0 y.
Proof. induction x as [|c x IH]; simpl; [reflexivity | exact IH]. Qed.

(** At a match the replacement is emitted and the scan resumes after
    the match. *)
Lemma scan_match (p r y : string) :
  p <> "" ->
  replaceAll_scan p r 0 (p ++ y) = r ++ replaceAll_scan p r 0 y.
Proof.
  intros Hp. destruct p as [|c p']; [congruence|].
  cbn [append replaceAll_scan].
  change (String c (p' ++ y)) with (String c p' ++ y).
  rewrite startsWith_append.
  replace (String.length (String c p') - 1) with (String.length p')
    by (simpl; lia).
  now rewrite scan_skip.
Qed.

Section Scan.

Variables p r : string.

(** A text without occurrence is left as it is. *)
Lemma scan_no_occurrence (s : string) :
  includes p s = false -> replaceAll_scan p r 0 s = s.
Proof.
  induction s as [|c s IH]; intros H; [reflexivity|].
  cbn [includes] in H. apply orb_false_iff in H as [H1 H2].
  cbn [replaceAll_scan]. rewrite H1. now rewrite IH.
Qed.

Lemma scan_length_le (s : string) (k : nat) :
  String.length r <= String.length p ->
  String.length (replaceAll_scan p r k s) <= String.length s - k.
Proof.
  intros Hr. revert k; induction s as [|c s IH]; intros k; [simpl; lia|].
  destruct k as [|k]; cbn [replaceAll_scan].
  - destruct (startsWith p (String c s)) eqn:E.
    + apply startsWith_length in E. rewrite length_append.
      specialize (IH (String.length p - 1)). simpl in *. lia.
    + specialize (IH 0). simpl in *. lia.
  - specialize (IH k). simpl. lia.
Qed.

(** Where the replacement is shorter than the pattern, a text with an
    occurrence gets shorter. *)
Lemma scan_length_lt (s : string) :
  String.length r < String.length p -> includes p s = true ->
  String.length (replaceAll_scan p r 0 s) < String.length s.
Proof.
  intros Hr. induction s as [|c s IH]; intros H.
  - cbn [includes] in H. rewrite orb_false_r in H.
    apply startsWith_length in H. simpl in H. lia.
  - cbn [replaceAll_scan]. destruct (startsWith p (String c s)) eqn:E.
    + apply startsWith_length in E. rewrite length_append.
      pose proof (scan_length_le s (String.length p - 1)) as L.
      simpl in *. lia.
    + cbn [includes] in H. rewrite E in H. simpl in H.
      apply IH in H. simpl. lia.
Qed.

(** The first occurrence: what precedes it is copied, it is replaced,
    and the scan goes on behind it. *)
Lemma scan_first_occurrence (x y : string) :
  p <> "" -> indexOf p (x ++ p) = Some (String.length x) ->
  replaceAll_scan p r 0 (x ++ p ++ y) = x ++ r ++ replaceAll_scan p r 0 y.
Proof.
  intros Hp. induction x as [|c x IH]; intros H.
  - simpl. now apply scan_match.
  - cbn [append indexOf String.length] in H.
    change (String c (x ++ p)) with (String c x ++ p) in H.
    destruct (startsWith p (String c x ++ p)) eqn:E; [discriminate|].
    destruct (indexOf p (x ++ p)) as [n|] eqn:I; [|discriminate].
    simpl in H. injection H as ->.
    cbn [append replaceAll_scan].
    change (String c (x ++ p ++ y)) with (String c x ++ p ++ y).
    destruct (startsWith p (String c x ++ p ++ y)) eqn:E'.
    + rewrite <- append_assoc in E'.
      apply startsWith_truncate in E'; [congruence|].
      rewrite length_append. lia.
    + now rewrite IH.
Qed.

(** Without a border, every occurrence is a match of the scan: the
    text before an occurrence and the text behind it are scanned
    independently of it. *)
Lemma scan_unbordered (y x : string) (k : nat) :
  p <> "" -> bordered p = false -> k <= String.length x ->
  replaceAll_scan p r k (x ++ p ++ y) =
  replaceAll_scan p r k x ++ r ++ replaceAll_scan p r 0 y.
Proof.
  intros Hp Hb. revert k; induction x as [|c x IH]; intros k Hk.
  - simpl in Hk. assert (k = 0) as -> by lia. simpl. now apply scan_match.
  - destruct k as [|k]; cbn [append replaceAll_scan].
    + change (String c (x ++ p ++ y)) with (String c x ++ p ++ y).
      destruct (startsWith p (String c x)) eqn:E.
      * rewrite (startsWith_extend _ _ _ E).
        apply startsWith_length in E.
        rewrite IH by (simpl in E; lia).
        now rewrite append_assoc.
      * destruct (startsWith p (String c x ++ p ++ y)) eqn:E'.
        -- destruct (le_lt_dec (String.length p) (String.length (String c x)))
             as [L|L].
           ++ apply startsWith_truncate in E'; [congruence | assumption].
           ++ rewrite unbordered_no_straddle in E';
                [discriminate | assumption | discriminate | assumption].
        -- rewrite IH by lia. reflexivity.
    + apply IH. simpl in Hk. lia.
Qed.

(** A prefix [q] of the result that avoids the first unit of the
    replacement was copied: it is a prefix of the text already. *)
Lemma scan_startsWith (a : ascii) (r' q s : string) :
  r = String a r' -> includes (String a "") q = false ->
  startsWith q (replaceAll_scan p r 0 s) = true -> startsWith q s = true.
Proof.
  intros Hr. revert s; induction q as [|b q IH]; intros s Ha H;
    [reflexivity|].
  cbn [includes startsWith] in Ha.
  apply orb_false_iff in Ha as [Hab Ha].
  rewrite andb_true_r in Hab.
  destruct s as [|c s]; [simpl in H; discriminate|].
  cbn [replaceAll_scan] in H.
  destruct (startsWith p (String c s)).
  - rewrite Hr in H. simpl in H. rewrite Ascii.eqb_sym, Hab in H.
    discriminate.
  - apply startsWith_cons in H as [-> H]. apply startsWith_cons.
    split; [reflexivity|]. apply IH; assumption.
Qed.

End Scan.

End JsStringFacts.

Import JsStringFacts.

(** ** The text-repair function *)

Lemma replaceAll_nonempty (p r s : string) :
  p <> "" -> replaceAll p r s = replaceAll_scan p r 0 s.
Proof. destruct p; [congruence | reflexivity]. Qed.

Lemma MINDMAP_UML_END_nonempty : MINDMAP_UML_END <> "".
Proof. discriminate. Qed.

Lemma EMPTY_FENCE_nonempty : EMPTY_FENCE <> "".
Proof. discriminate. Qed.

Create HintDb hotfix.
#[local] Hint Resolve MINDMAP_UML_END_nonempty EMPTY_FENCE_nonempty : hotfix.

(** The repaired text never begins with the block opener: a text that
    began with it was fenced, and neither substitution produces it. *)
Lemma hotFix_not_startsWith (s : string) :
  startsWith START_MARK (hotFixDiagramCode s) = false.
Proof.
  unfold hotFixDiagramCode.
  set (t := if startsWith START_MARK s then _ else _).
  rewrite !replaceAll_nonempty by auto with hotfix.
  destruct (startsWith START_MARK
              (replaceAll_scan EMPTY_FENCE FENCE 0
                 (replaceAll_scan MINDMAP_UML_END MINDMAP_END 0 t))) eqn:E;
    [exfalso | reflexivity].
  apply (scan_startsWith EMPTY_FENCE FENCE "`"%char "``") in E;
    [| reflexivity | reflexivity].
  assert (Ht : startsWith START_MARK t = true).
  { destruct t as [|c t']; [discriminate E|].
    cbn [replaceAll_scan] in E.
    destruct (startsWith MINDMAP_UML_END (String c t')); [discriminate E|].
    unfold START_MARK in *.
    apply startsWith_cons in E as [<- E]. apply startsWith_cons.
    split; [reflexivity|].
    apply (scan_startsWith MINDMAP_UML_END MINDMAP_END "@"%char "endmindmap")
      in E; [assumption | reflexivity | reflexivity]. }
  subst t. destruct (startsWith START_MARK s) eqn:Es.
  - discriminate Ht.
  - congruence.
Qed.

(** On a text that does not begin with the block opener the function is
    the two substitutions. *)
Lemma hotFix_unfenced (t : string) :
  startsWith START_MARK t = false ->
  hotFixDiagramCode t =
  replaceAll_scan EMPTY_FENCE FENCE 0
    (replaceAll_scan MINDMAP_UML_END MINDMAP_END 0 t).
Proof.
  intros H. unfold hotFixDiagramCode. rewrite H.
  now rewrite !replaceAll_nonempty by auto with hotfix.
Qed.

(** C3, as stated, fails: one pass of the mindmap substitution can leave
    a fresh occurrence of its own pattern, which a second application
    removes. *)
Lemma hotFix_not_idempotent :
  let s := "@endmindmap" ++ LF ++ "@enduml" ++ LF ++ "@enduml" in
  hotFixDiagramCode s = "@endmindmap" ++ LF ++ "@enduml" /\
  hotFixDiagramCode (hotFixDiagramCode s) = "@endmindmap" /\
  hotFixDiagramCode (hotFixDiagramCode s) <> hotFixDiagramCode s.
Proof. repeat split. vm_compute. discriminate. Qed.

(** The same happens with the fence substitution, whose pattern overlaps
    itself. *)
Example hotFix_fences_twice :
  let s := "```" ++ LF ++ "```" ++ LF ++ "```" in
  hotFixDiagramCode s = "```" ++ LF ++ "```" /\
  hotFixDiagramCode (hotFixDiagramCode s) = "```".
Proof. split; reflexivity. Qed.

(** C3 (amended): applying the repair function twice yields the same
    result as applying it once exactly when the once-repaired text holds
    no occurrence of either pattern, ["@endmindmap\n@enduml"] or
    ["```\n```"]. *)
Theorem hotFix_idempotent_iff (s : string) :
  hotFixDiagramCode (hotFixDiagramCode s) = hotFixDiagramCode s <->
  includes MINDMAP_UML_END (hotFixDiagramCode s) = false /\
  includes EMPTY_FENCE (hotFixDiagramCode s) = false.
Proof.
  rewrite (hotFix_unfenced (hotFixDiagramCode s)) by apply hotFix_not_startsWith.
  set (t := hotFixDiagramCode s). split.
  - intros H.
    assert (L2 : forall x, String.length (replaceAll_scan EMPTY_FENCE FENCE 0 x)
                           <= String.length x).
    { intros x.
      pose proof (scan_length_le EMPTY_FENCE FENCE x 0) as L.
      simpl in L. lia. }
    destruct (includes MINDMAP_UML_END t) eqn:I1.
    + exfalso.
      pose proof (scan_length_lt MINDMAP_UML_END MINDMAP_END t) as L1.
      specialize (L2 (replaceAll_scan MINDMAP_UML_END MINDMAP_END 0 t)).
      rewrite H in L2. simpl in L1. specialize (L1 ltac:(lia) I1). lia.
    + rewrite (scan_no_occurrence MINDMAP_UML_END MINDMAP_END t I1) in H.
      split; [reflexivity|].
      destruct (includes EMPTY_FENCE t) eqn:I2; [exfalso | reflexivity].
      pose proof (scan_length_lt EMPTY_FENCE FENCE t) as L.
      simpl in L. specialize (L ltac:(lia) I2). rewrite H in L. lia.
  - intros [I1 I2].
    rewrite (scan_no_occurrence MINDMAP_UML_END MINDMAP_END t I1).
    apply scan_no_occurrence, I2.
Qed.

Lemma hotFix_idempotent_iff_witness :
  let s := "@startuml" ++ LF ++ "A->B" ++ LF ++ "@enduml" in
  hotFixDiagramCode (hotFixDiagramCode s) = hotFixDiagramCode s.
Proof.
  intros s. apply (proj2 (hotFix_idempotent_iff s)). split; reflexivity.
Defined.

Lemma mindmapCollapse_scan (s : string) :
  mindmapCollapse s = replaceAll_scan MINDMAP_UML_END MINDMAP_END 0 s.
Proof. reflexivity. Qed.

Lemma emptyFenceCollapse_scan (s : string) :
  emptyFenceCollapse s = replaceAll_scan EMPTY_FENCE FENCE 0 s.
Proof. reflexivity. Qed.

(** The order of the steps matters: collapsing empty fences before the
    fence is put around the text misses the pair the fence creates. *)
Example hotFix_order_matters :
  let s := "@startuml" ++ LF ++ "```" in
  emptyFenceCollapse (fenceWrap s) = "```" ++ LF ++ "@startuml" ++ LF ++ "```" /\
  fenceWrap (emptyFenceCollapse s) =
    "```" ++ LF ++ "@startuml" ++ LF ++ "```" ++ LF ++ "```".
Proof. split; reflexivity. Qed.

(** The scan as a whole: a text made of gaps joined by the pattern, where
    in each gap followed by the pattern the pattern occurs nowhere earlier
    and the last gap holds no occurrence, becomes the same gaps joined by
    the replacement. *)
Lemma scan_join (p r : string) (gaps : list string) (last : string) :
  p <> "" ->
  Forall (fun g => indexOf p (g ++ p) = Some (String.length g)) gaps ->
  includes p last = false ->
  replaceAll_scan p r 0 (String.concat p (gaps ++ [last]))
  = String.concat r (gaps ++ [last]).
Proof.
  intros Hp F Hl. induction F as [|g gs Hg _ IH].
  - cbn. now apply scan_no_occurrence.
  - assert (E : forall sep, String.concat sep ((g :: gs) ++ [last])
                            = g ++ sep ++ String.concat sep (gs ++ [last]))
      by (intros sep; destruct gs; reflexivity).
    rewrite !E, scan_first_occurrence by assumption.
    now rewrite IH.
Qed.

(** C4, as stated, fails for the fence pair, whose occurrences can
    overlap: in three fences on three lines the pair occurs at units 0
    and 4, one pass replaces the first occurrence only and a pair is
    left; and an occurrence between two texts is not always replaced by
    itself, as it is for the mindmap tags. *)
Lemma fence_occurrence_survives :
  let s := "```" ++ LF ++ "```" ++ LF ++ "```" in
  startsWith ("```" ++ LF ++ "```") s = true /\
  startsWith ("```" ++ LF ++ "```") ("```" ++ LF ++ "```") = true /\
  s = ("```" ++ LF) ++ ("```" ++ LF ++ "```") /\
  hotFixDiagramCode s = "```" ++ LF ++ "```" /\
  includes ("```" ++ LF ++ "```") (hotFixDiagramCode s) = true /\
  emptyFenceCollapse
    (("```" ++ LF) ++ ("```" ++ LF ++ "```") ++ (LF ++ "```"))
  <> emptyFenceCollapse ("```" ++ LF) ++ "```"
       ++ emptyFenceCollapse (LF ++ "```").
Proof. repeat split. vm_compute. discriminate. Qed.

(** C4 (amended): the function is the composition, in this order, of the
    fence wrap, the mindmap-tag collapse and the empty-fence collapse; the
    unfenced text ["@startuml\nA->B\n@enduml"] comes out fenced; the
    mindmap collapse replaces every occurrence of
    ["@endmindmap\n@enduml"] by ["@endmindmap"], whatever stands before
    and behind it; the empty-fence collapse replaces by one ["```"] the
    occurrences of ["```\n```"] that a left-to-right scan finds when it
    resumes behind each match: the leftmost occurrence, then the leftmost
    one behind it, and so on, so that gaps joined by the pair become the
    gaps joined by ["```"]; an occurrence that overlaps an earlier match
    is not replaced; and a text without occurrence is left unchanged. *)
Theorem hotFix_steps :
  (forall s, hotFixDiagramCode s
             = emptyFenceCollapse (mindmapCollapse (fenceWrap s))) /\
  hotFixDiagramCode ("@startuml" ++ LF ++ "A->B" ++ LF ++ "@enduml")
    = "```" ++ LF ++ "@startuml" ++ LF ++ "A->B" ++ LF ++ "@enduml"
        ++ LF ++ "```" /\
  (forall x y,
      mindmapCollapse (x ++ ("@endmindmap" ++ LF ++ "@enduml") ++ y)
      = mindmapCollapse x ++ "@endmindmap" ++ mindmapCollapse y) /\
  (forall x y,
      indexOf ("```" ++ LF ++ "```") (x ++ "```" ++ LF ++ "```")
        = Some (String.length x) ->
      emptyFenceCollapse (x ++ ("```" ++ LF ++ "```") ++ y)
      = x ++ "```" ++ emptyFenceCollapse y) /\
  (forall s, includes ("@endmindmap" ++ LF ++ "@enduml") s = false ->
             mindmapCollapse s = s) /\
  (forall s, includes ("```" ++ LF ++ "```") s = false ->
             emptyFenceCollapse s = s) /\
  (forall (gaps : list string) (last : string),
      Forall (fun g => indexOf ("```" ++ LF ++ "```") (g ++ "```" ++ LF ++ "```")
                       = Some (String.length g)) gaps ->
      includes ("```" ++ LF ++ "```") last = false ->
      emptyFenceCollapse (String.concat ("```" ++ LF ++ "```") (gaps ++ [last]))
      = String.concat "```" (gaps ++ [last])).
Proof.
  split; [reflexivity|]. split; [reflexivity|]. repeat split.
  - intros x y. rewrite !mindmapCollapse_scan.
    apply (scan_unbordered MINDMAP_UML_END MINDMAP_END y x 0);
      [discriminate | reflexivity | lia].
  - intros x y H. rewrite !emptyFenceCollapse_scan.
    apply (scan_first_occurrence EMPTY_FENCE FENCE x y);
      [discriminate | exact H].
  - intros s H. rewrite mindmapCollapse_scan.
    now apply scan_no_occurrence.
  - intros s H. rewrite emptyFenceCollapse_scan.
    now apply scan_no_occurrence.
  - intros gaps last F H. rewrite emptyFenceCollapse_scan.
    apply (scan_join EMPTY_FENCE FENCE gaps last);
      [discriminate | exact F | exact H].
Qed.

Lemma hotFix_steps_witness :
  emptyFenceCollapse
    ("A" ++ LF ++ "```" ++ LF ++ "```" ++ LF ++ "B" ++ LF ++ "```" ++ LF ++ "```")
  = "A" ++ LF ++ "```" ++ LF ++ "B" ++ LF ++ "```" /\
  mindmapCollapse ("@endmindmap" ++ LF ++ "@endmindmap" ++ LF ++ "@enduml")
  = "@endmindmap" ++ LF ++ "@endmindmap".
Proof.
  destruct hotFix_steps as (_ & _ & Hm & Hf & _ & _).
  split.
  - exact (eq_trans
             (Hf ("A" ++ LF) (LF ++ "B" ++ LF ++ "```" ++ LF ++ "```")
                 eq_refl)
             eq_refl).
  - exact (eq_trans (Hm ("@endmindmap" ++ LF) "") eq_refl).
Defined.

(** ** The dialog *)

Section DialogProperties.

Context {DiagramType DiagramLanguage Prompt : Type}.
Variable bigDiagramPrompt :
  DiagramType -> DiagramLanguage -> string -> string -> string -> Prompt.

Local Abbreviation State := (DialogState DiagramType DiagramLanguage).
Local Abbreviation Trace := (list (Action Prompt)).
Local Abbreviation generate := (handleGenerateNew bigDiagramPrompt).
Local Abbreviation commit :=
  (@handleInsertAndClose DiagramType DiagramLanguage Prompt).
Local Abbreviation teardown :=
  (@unmount DiagramType DiagramLanguage Prompt).
Local Abbreviation target props conversations :=
  (find (fun c => DConversation.id c =? conversationId props) conversations).

Implicit Types (st : State) (tr : Trace) (props : DiagramConfig)
  (run : StreamRun).

Lemma actions_bind {A B : Type} (m : Cmd Prompt A) (k : A -> Cmd Prompt B) :
  actions (bind Prompt m k) = (actions m ++ actions (k (fst m)))%list.
Proof.
  unfold actions, bind. destruct m as [a l1]. simpl.
  now destruct (k a).
Qed.

Lemma fst_bind {A B : Type} (m : Cmd Prompt A) (k : A -> Cmd Prompt B) :
  fst (bind Prompt m k) = fst (k (fst m)).
Proof.
  unfold bind. destruct m as [a l1]. simpl. now destruct (k a).
Qed.

Lemma exec_app st (l1 l2 : Trace) :
  exec st (l1 ++ l2) = exec (exec st l1) l2.
Proof. apply fold_left_app. Qed.

Lemma count_app (f : Action Prompt -> bool) (l1 l2 : Trace) :
  count f (l1 ++ l2) = count f l1 + count f l2.
Proof. unfold count. now rewrite filter_app, length_app. Qed.

(** *** The streaming callback *)

Lemma onUpdate_fst (d : string) (u : StreamingUpdate.t) :
  fst (onUpdate Prompt d u) =
  if truthy (StreamingUpdate.textSoFar u)
  then match StreamingUpdate.textSoFar u with Some t => t | None => d end
  else d.
Proof.
  unfold onUpdate. destruct (StreamingUpdate.textSoFar u) as [[|c t]|];
    reflexivity.
Qed.

Lemma deliver_fst (us : list StreamingUpdate.t) (d : string) :
  fst (deliver Prompt d us) =
  fold_left
    (fun acc u => if truthy (StreamingUpdate.textSoFar u)
                  then match StreamingUpdate.textSoFar u with
                       | Some t => t
                       | None => acc
                       end
                  else acc) us d.
Proof.
  revert d; induction us as [|u us IH]; intros d; [reflexivity|].
  cbn [deliver fold_left]. rewrite fst_bind, IH, onUpdate_fst. reflexivity.
Qed.

(** The callback only ever stores a non-empty text. *)
Lemma deliver_actions (us : list StreamingUpdate.t) (d : string) :
  Forall (fun a => exists c t, a = SetDiagramCode (Some (String c t)))
         (actions (deliver Prompt d us)).
Proof.
  revert d; induction us as [|u us IH]; intros d; [constructor|].
  cbn [deliver]. rewrite actions_bind. apply Forall_app. split; [|apply IH].
  unfold onUpdate. destruct (StreamingUpdate.textSoFar u) as [[|c t]|];
    cbn; try constructor; eauto.
Qed.

Lemma deliver_count (f : Action Prompt -> bool) us d :
  (forall v, f (SetDiagramCode v) = false) ->
  count f (actions (deliver Prompt d us)) = 0.
Proof.
  intros Hf. unfold count.
  induction (deliver_actions us d) as [|a l (c & t & ->) _ IH];
    [reflexivity|].
  cbn [filter]. now rewrite Hf.
Qed.

(** No delivery with text: the local variable keeps the placeholder and
    the callback stores nothing. *)
Lemma deliver_silent us d :
  Forall (fun u => truthy (StreamingUpdate.textSoFar u) = false) us ->
  deliver Prompt d us = (d, []).
Proof.
  induction 1 as [|u us Hu _ IH]; [reflexivity|].
  cbn [deliver]. unfold onUpdate. rewrite Hu. cbn. now rewrite IH.
Qed.

(** *** The catch and finally blocks *)

Lemma catchFinally_actions (d : string) (o : Settled) :
  actions (catchFinally d o : Cmd Prompt unit) =
  (match o with
   | Resolved => []
   | Rejected error =>
       [SetDiagramCode None; SetErrorMessage (catchMessage error)]
   end ++
   [SetDiagramCode (Some (hotFixDiagramCode d)); SetAbortController None])%list.
Proof. destruct o; reflexivity. Qed.

(** Whatever the state when the call settles, the two blocks leave the
    repaired text as the result and no controller. *)
Lemma catchFinally_exec st (d : string) (o : Settled) :
  let st' := exec st (actions (catchFinally d o : Cmd Prompt unit)) in
  diagramCode st' = Some (hotFixDiagramCode d) /\
  abortController st' = None /\
  errorMessage st' =
    match o with
    | Resolved => errorMessage st
    | Rejected error => catchMessage error
    end.
Proof. destruct o; repeat split. Qed.

(** *** The gates of handleGenerateNew *)

Ltac gates st props conversations :=
  unfold handleGenerateNew;
  destruct (abortController st) as [h|] eqn:Eabort;
  [| destruct (diagramType st) as [dType|] eqn:Etype;
     [destruct (diagramLanguage st) as [dLanguage|] eqn:Elanguage;
      [destruct (diagramLlm st) as [llm|] eqn:Ellm;
       [destruct (target props conversations) as [conv|] eqn:Econv;
        [destruct (hd_error (DConversation.messages conv)) as [sys|] eqn:Esys;
         [destruct (DMessage.role sys =? "system") eqn:Erole|]|]|]|]|]].

(** An invocation that reaches the streaming call performs, in order: the
    three setter calls of lines 86-92, the call, the stores of the
    callback, and the catch and finally blocks on the text the local
    variable then holds. *)
Lemma generate_started props st conversations fresh run :
  let tr := actions (generate props st conversations fresh run) in
  0 < count is_llmCall tr ->
  abortController st = None /\
  exists llmId prompt,
    tr = ([SetErrorMessage None; SetDiagramCode (Some "Loading...");
           SetAbortController (Some fresh);
           LlmStreamingChatGenerate llmId prompt fresh]
          ++ actions (deliver Prompt "Loading..." (updates run))
          ++ actions (catchFinally (lastText run) (settled run)
                      : Cmd Prompt unit))%list.
Proof.
  cbv zeta. gates st props conversations; cbn; try lia.
  intros _. split; [reflexivity|].
  exists (DLLM.id llm),
    (bigDiagramPrompt dType dLanguage (DMessage.text sys) (text props)
       (customInstruction st)).
  pose proof (deliver_fst (updates run) "Loading...") as Hd.
  fold (lastText run) in Hd.
  destruct (deliver Prompt "Loading..." (updates run)) as [d l].
  cbn in Hd. subst d. cbn.
  destruct (catchFinally (lastText run) (settled run)) as [u l2].
  cbn. now rewrite app_nil_r.
Qed.

(** The stores of the callback touch the result text only. *)
Lemma exec_stores st (l : Trace) :
  Forall (fun a => exists c t, a = SetDiagramCode (Some (String c t))) l ->
  errorMessage (exec st l) = errorMessage st /\
  abortController (exec st l) = abortController st.
Proof.
  intros F. revert st.
  induction F as [|a l (c & t & ->) _ IH]; intros st; [split; reflexivity|].
  cbn [exec fold_left]. apply (IH (apply st (SetDiagramCode _))).
Qed.

(** The final state of an invocation that reached the streaming call. *)
Lemma generate_started_exec props st conversations fresh run :
  let tr := actions (generate props st conversations fresh run) in
  0 < count is_llmCall tr ->
  diagramCode (exec st tr) = Some (hotFixDiagramCode (lastText run)) /\
  abortController (exec st tr) = None /\
  errorMessage (exec st tr) =
    match settled run with
    | Resolved => None
    | Rejected error => catchMessage error
    end.
Proof.
  intros tr H. destruct (generate_started _ _ _ _ _ H) as (_ & i & q & E).
  fold tr in E. rewrite E. rewrite app_assoc, exec_app.
  set (st0 := exec st (_ ++ _)).
  pose proof (catchFinally_exec st0 (lastText run) (settled run)) as X.
  cbv zeta in X. destruct X as (Hc & Ha & He).
  repeat split; try assumption.
  rewrite He. destruct (settled run); [|reflexivity].
  subst st0. rewrite exec_app.
  now rewrite (proj1 (exec_stores _ _ (deliver_actions (updates run) _))).
Qed.

(** *** handleInsertAndClose on a non-empty result *)

Lemma commit_truthy props st (c : ascii) (t : string) :
  diagramCode st = Some (String c t) ->
  actions (commit props st) =
  [AppendMessage (conversationId props)
     (DMessage.with_originLLM
        (DIAGRAM_ACTOR_PREFIX ++
           match diagramLlm st with
           | Some llm =>
               if truthy (Some (DLLM.id llm)) then "-" ++ DLLM.id llm else ""
           | None => ""
           end)
        (createDMessage "assistant" (String c t)));
   OnClose].
Proof. intros H. unfold handleInsertAndClose. rewrite H. reflexivity. Qed.

(** *** The text the local variable holds when the call settles *)

Lemma lastText_placeholder run :
  Forall (fun u => truthy (StreamingUpdate.textSoFar u) = false) (updates run) ->
  lastText run = "Loading...".
Proof.
  unfold lastText. generalize "Loading...".
  induction 1 as [|u us Hu _ IH]; [reflexivity|].
  cbn [fold_left]. now rewrite Hu.
Qed.

Lemma lastText_last run (before after : list StreamingUpdate.t)
    (c : ascii) (t : string) :
  updates run =
    (before ++ {| StreamingUpdate.textSoFar := Some (String c t) |} :: after)%list ->
  Forall (fun u => truthy (StreamingUpdate.textSoFar u) = false) after ->
  lastText run = String c t.
Proof.
  intros E F. unfold lastText. rewrite E, fold_left_app. cbn [fold_left].
  cbn. clear E. generalize (String c t).
  induction F as [|u us Hu _ IH]; intros d; [reflexivity|].
  cbn [fold_left]. rewrite Hu. apply IH.
Qed.

(** *** The generate button *)

(** While a generation is in flight the button stops it instead of
    starting another one: the guard of line 75 is then only met by a
    handler of an earlier render. *)
Remark generateButton_in_flight props st conversations fresh run
    (h : AbortController) :
  abortController st = Some h ->
  actions (generateButtonOnClick bigDiagramPrompt props st conversations
             fresh run) = [Abort h].
Proof. intros H. unfold generateButtonOnClick. now rewrite H. Qed.

(** *** The claims *)

(** C1: while a generation is in flight (the cancel handle is non-null),
    [handleGenerateNew] does nothing: it performs no action at all, so no
    streaming call is issued and no cell of the state changes. *)
Theorem generate_in_flight_noop props st conversations fresh run
    (h : AbortController) :
  abortController st = Some h ->
  let tr := actions (generate props st conversations fresh run) in
  tr = [] /\ count is_llmCall tr = 0 /\ count is_setter tr = 0 /\
  exec st tr = st.
Proof.
  intros H. unfold handleGenerateNew. rewrite H. repeat split.
Qed.

(** C2: an invocation that issues the streaming call ends, however the
    call settles, with the finalization: the last two actions store
    [hotFixDiagramCode] of the last text (last non-empty partial, or the
    placeholder) as the result and clear the cancel handle; the handle is
    cleared exactly once in the whole invocation; and after a rejection
    the stored result is that repaired text, next to the error message. *)
Theorem generate_finalizes props st conversations fresh run :
  let tr := actions (generate props st conversations fresh run) in
  0 < count is_llmCall tr ->
  (exists pre,
      tr = (pre ++ [SetDiagramCode (Some (hotFixDiagramCode (lastText run)));
                    SetAbortController None])%list /\
      count is_clearAbortController pre = 0) /\
  count is_clearAbortController tr = 1 /\
  count is_llmCall tr = 1 /\
  diagramCode (exec st tr) = Some (hotFixDiagramCode (lastText run)) /\
  abortController (exec st tr) = None /\
  (forall error, settled run = Rejected error ->
     diagramCode (exec st tr) = Some (hotFixDiagramCode (lastText run)) /\
     errorMessage (exec st tr) = catchMessage error).
Proof.
  intros tr H.
  destruct (generate_started_exec _ _ _ _ _ H) as (Hc & Ha & He).
  destruct (generate_started _ _ _ _ _ H) as (_ & i & q & E).
  fold tr in E, Hc, Ha, He.
  assert (Hd : forall f, (forall v, f (SetDiagramCode v) = false) ->
             count f (actions (deliver Prompt "Loading..." (updates run))) = 0)
    by (intros f Hf; now apply deliver_count).
  rewrite catchFinally_actions in E.
  split; [|split; [|split; [|split; [|split]]]]; try assumption.
  - exists ([SetErrorMessage None; SetDiagramCode (Some "Loading...");
             SetAbortController (Some fresh);
             LlmStreamingChatGenerate i q fresh]
            ++ actions (deliver Prompt "Loading..." (updates run))
            ++ match settled run with
               | Resolved => []
               | Rejected error =>
                   [SetDiagramCode None; SetErrorMessage (catchMessage error)]
               end)%list.
    split.
    + rewrite E. now rewrite <- !app_assoc.
    + rewrite !count_app, Hd by reflexivity.
      destruct (settled run); reflexivity.
  - rewrite E, !count_app, Hd by reflexivity.
    destruct (settled run); reflexivity.
  - rewrite E, !count_app, Hd by reflexivity.
    destruct (settled run); reflexivity.
  - intros error Hr. split; [assumption|]. now rewrite He, Hr.
Qed.

(** C5 (amended): when no generation is in flight and a diagram type, a
    syntax, a generator or the conversation is missing, or the first
    message of the conversation is absent or not of role system,
    [handleGenerateNew] performs one action only, setting a validation
    error message: no streaming call is issued, and the result text and
    the cancel handle are unchanged. *)
Theorem generate_validation_gate props st conversations fresh run :
  abortController st = None ->
  (diagramType st = None \/ diagramLanguage st = None \/
   diagramLlm st = None \/ target props conversations = None \/
   exists conv, target props conversations = Some conv /\
     forall sys, hd_error (DConversation.messages conv) = Some sys ->
                 DMessage.role sys <> "system") ->
  let tr := actions (generate props st conversations fresh run) in
  exists msg,
    tr = [SetErrorMessage (Some msg)] /\
    (msg = "Invalid diagram Type, Language, Generator, or conversation." \/
     msg = "No System message in this conversation") /\
    (diagramType st = None \/ diagramLanguage st = None \/
     diagramLlm st = None \/ target props conversations = None ->
     msg = "Invalid diagram Type, Language, Generator, or conversation.") /\
    count is_llmCall tr = 0 /\
    errorMessage (exec st tr) = Some msg /\
    diagramCode (exec st tr) = diagramCode st /\
    abortController (exec st tr) = abortController st.
Proof.
  intros Hab Hbad. cbv zeta.
  gates st props conversations; try discriminate Hab;
    try (eexists; split; [reflexivity|]; cbn; rewrite ?Hab;
         repeat split; auto; intros [H|[H|[H|H]]]; congruence).
  exfalso. destruct Hbad as [H|[H|[H|[H|(conv' & H & Hsys)]]]];
    try discriminate H.
  injection H as <-. apply (Hsys sys Esys). now apply String.eqb_eq.
Qed.

(** C6 (amended): when the streaming call of an invocation rejects with
    an error named 'AbortError', the invocation ends with the cancel
    handle null, the message "Interrupted." (with its full stop) and the
    repaired last text as the result; the catch and finally blocks yield
    this from any state the dialog is in when the call settles. *)
Theorem generate_interrupted props st conversations fresh run
    (e : JsError.t) :
  let tr := actions (generate props st conversations fresh run) in
  0 < count is_llmCall tr ->
  settled run = Rejected (Some e) ->
  JsError.name e = Some "AbortError" ->
  (abortController (exec st tr) = None /\
   errorMessage (exec st tr) = Some "Interrupted." /\
   diagramCode (exec st tr) = Some (hotFixDiagramCode (lastText run))) /\
  (forall st0 : State,
     let st1 := exec st0 (actions (catchFinally (lastText run) (settled run)
                                   : Cmd Prompt unit)) in
     abortController st1 = None /\
     errorMessage st1 = Some "Interrupted." /\
     diagramCode st1 = Some (hotFixDiagramCode (lastText run))).
Proof.
  intros tr H Hr Hn.
  assert (Hm : catchMessage (Some e) = Some "Interrupted.")
    by (unfold catchMessage; now rewrite Hn).
  destruct (generate_started_exec _ _ _ _ _ H) as (Hc & Ha & He).
  fold tr in Hc, Ha, He. rewrite Hr, Hm in He. split; [auto|].
  intros st0.
  destruct (catchFinally_exec st0 (lastText run) (settled run))
    as (Hc0 & Ha0 & He0).
  rewrite Hr, Hm in He0. rewrite Hr in *. auto.
Qed.

(** C7: with an empty or absent result text, [handleInsertAndClose]
    performs one action only, setting the error message "Nothing to add
    to the conversation.": the append operation of the store is not
    called and the dialog is not closed. *)
Theorem commit_without_result props st :
  diagramCode st = None \/ diagramCode st = Some "" ->
  let tr := actions (commit props st) in
  tr = [SetErrorMessage (Some "Nothing to add to the conversation.")] /\
  count is_storeOrClose tr = 0 /\
  errorMessage (exec st tr) = Some "Nothing to add to the conversation.".
Proof.
  intros [H|H]; unfold handleInsertAndClose; rewrite H; repeat split.
Qed.

(** C8: destroying the dialog while a generation is in flight runs the
    effect cleanup on the live cancel handle: the teardown signals
    cancellation to exactly that handle, exactly once, and the catch and
    finally blocks of the interrupted invocation add no further signal. *)
Theorem unmount_aborts_once st (h : AbortController) :
  abortController st = Some h ->
  let tr := actions (teardown st) in
  tr = [Abort h; SetAbortController None] /\
  count is_abort tr = 1 /\
  In (Abort h) tr /\
  (forall c, In (Abort c) tr -> c = h) /\
  (forall (d : string) (o : Settled),
     count is_abort (tr ++ actions (catchFinally d o)) = 1).
Proof.
  intros H. unfold unmount. rewrite H. cbn.
  repeat split; auto.
  - intros c [E|[E|[]]]; congruence.
  - intros d [|error]; reflexivity.
Qed.

(** C9 (amended): [handleInsertAndClose] never looks at the cancel
    handle: for every state with a non-empty result text it appends
    exactly one message, of role 'assistant', with that text and with
    origin 'diagram' followed by '-<generator id>' when a generator with a
    non-empty id is selected (plain 'diagram' otherwise), then closes the
    dialog, and sets no state; with a generation in flight only the
    disabled "Add To Chat" button stands in the way. *)
Theorem commit_appends props st (code : string) :
  diagramCode st = Some code -> code <> "" ->
  let tr := actions (commit props st) in
  (exists origin,
     tr = [AppendMessage (conversationId props)
             {| DMessage.role := "assistant"; DMessage.text := code;
                DMessage.originLLM := Some origin |};
           OnClose] /\
     (diagramLlm st = None -> origin = "diagram") /\
     (forall llm, diagramLlm st = Some llm ->
        (DLLM.id llm <> "" -> origin = "diagram-" ++ DLLM.id llm) /\
        (DLLM.id llm = "" -> origin = "diagram"))) /\
  count is_setter tr = 0 /\
  exec st tr = st /\
  (abortController st <> None -> addToChatDisabled st = true).
Proof.
  intros H Hne. destruct code as [|c t]; [congruence|].
  cbv zeta. rewrite (commit_truthy props st c t H).
  split; [|repeat split].
  - eexists. split; [reflexivity|]. split.
    + intros ->. reflexivity.
    + intros llm ->. destruct (DLLM.id llm) as [|x i]; split;
        intros; try congruence; reflexivity.
  - intros Hc. unfold addToChatDisabled.
    destruct (abortController st); [apply orb_true_r | congruence].
Qed.

(** C10: when the streaming call resolves without having delivered a
    non-empty text, the stored result is [hotFixDiagramCode "Loading..."],
    which is "Loading..." itself: the placeholder is the result, the
    "Add To Chat" button is enabled, and committing appends a message
    with the text "Loading...". *)
Theorem generate_silent_success props st conversations fresh run :
  let tr := actions (generate props st conversations fresh run) in
  0 < count is_llmCall tr ->
  settled run = Resolved ->
  Forall (fun u => truthy (StreamingUpdate.textSoFar u) = false) (updates run) ->
  let st' := exec st tr in
  diagramCode st' = Some (hotFixDiagramCode "Loading...") /\
  hotFixDiagramCode "Loading..." = "Loading..." /\
  errorMessage st' = None /\
  addToChatDisabled st' = false /\
  exists m,
    actions (commit props st') = [AppendMessage (conversationId props) m; OnClose] /\
    DMessage.role m = "assistant" /\ DMessage.text m = "Loading...".
Proof.
  intros tr H Hr Hs st'.
  destruct (generate_started_exec _ _ _ _ _ H) as (Hc & Ha & He).
  fold tr in Hc, Ha, He. fold st' in Hc, Ha, He.
  rewrite (lastText_placeholder run Hs) in Hc. rewrite Hr in He.
  assert (Hfix : hotFixDiagramCode "Loading..." = "Loading...") by reflexivity.
  repeat split; try assumption.
  - unfold addToChatDisabled. rewrite Hc, Ha. reflexivity.
  - rewrite Hfix in Hc. eexists. split.
    + apply (commit_truthy props st' _ _ Hc).
    + split; reflexivity.
Qed.

End DialogProperties.

(** ** The claims on the sample session *)

Lemma generate_in_flight_noop_witness :
  abortController Sample.generating = Some 5 /\
  Sample.generate Sample.generating Sample.runOk = [] /\
  exec Sample.generating (Sample.generate Sample.generating Sample.runOk)
  = Sample.generating.
Proof.
  split; [reflexivity|].
  destruct (generate_in_flight_noop Sample.bigDiagramPrompt Sample.props
              Sample.generating Sample.conversations 5 Sample.runOk 5 eq_refl)
    as (H1 & _ & _ & H2).
  split; [exact H1 | exact H2].
Defined.

Lemma generate_finalizes_witness :
  0 < count is_llmCall (Sample.generate Sample.idle Sample.runFailed) /\
  count is_clearAbortController (Sample.generate Sample.idle Sample.runFailed) = 1 /\
  diagramCode (exec Sample.idle (Sample.generate Sample.idle Sample.runFailed))
  = Some (hotFixDiagramCode (lastText Sample.runFailed)) /\
  abortController (exec Sample.idle (Sample.generate Sample.idle Sample.runFailed))
  = None.
Proof.
  assert (H : 0 < count is_llmCall (Sample.generate Sample.idle Sample.runFailed))
    by (vm_compute; lia).
  split; [exact H|].
  destruct (generate_finalizes Sample.bigDiagramPrompt Sample.props Sample.idle
              Sample.conversations 5 Sample.runFailed H)
    as (_ & H1 & _ & H2 & H3 & _).
  split; [exact H1 | split; [exact H2 | exact H3]].
Defined.

(** C5, as stated, fails while a generation is in flight: the guard of
    line 75 returns before the validation, and no error message is set
    although no generator is selected. *)
Lemma generate_gate_skipped_in_flight :
  diagramLlm Sample.generatingNoLlm = None /\
  Sample.generate Sample.generatingNoLlm Sample.runOk = [] /\
  errorMessage
    (exec Sample.generatingNoLlm
       (Sample.generate Sample.generatingNoLlm Sample.runOk)) = None.
Proof. repeat split. Qed.

Lemma generate_validation_gate_witness :
  abortController Sample.noLlm = None /\
  diagramLlm Sample.noLlm = None /\
  exists msg,
    Sample.generate Sample.noLlm Sample.runOk = [SetErrorMessage (Some msg)] /\
    count is_llmCall (Sample.generate Sample.noLlm Sample.runOk) = 0 /\
    diagramCode (exec Sample.noLlm (Sample.generate Sample.noLlm Sample.runOk))
    = diagramCode Sample.noLlm.
Proof.
  split; [reflexivity|]. split; [reflexivity|].
  destruct (generate_validation_gate Sample.bigDiagramPrompt Sample.props
              Sample.noLlm Sample.conversations 5 Sample.runOk eq_refl
              (or_intror (or_intror (or_introl eq_refl))))
    as (msg & H1 & _ & _ & H2 & _ & H3 & _).
  exists msg. split; [exact H1 | split; [exact H2 | exact H3]].
Defined.

(** C6, as stated, fails on the text of the message: the source sets
    'Interrupted.' with a full stop, not 'Interrupted'. *)
Lemma generate_interrupted_message :
  0 < count is_llmCall (Sample.generate Sample.idle Sample.runAborted) /\
  errorMessage
    (exec Sample.idle (Sample.generate Sample.idle Sample.runAborted))
  = Some "Interrupted." /\
  errorMessage
    (exec Sample.idle (Sample.generate Sample.idle Sample.runAborted))
  <> Some "Interrupted".
Proof.
  split; [vm_compute; lia|]. split; [reflexivity|].
  vm_compute. discriminate.
Qed.

Lemma generate_interrupted_witness :
  0 < count is_llmCall (Sample.generate Sample.idle Sample.runAborted) /\
  abortController
    (exec Sample.idle (Sample.generate Sample.idle Sample.runAborted)) = None /\
  errorMessage
    (exec Sample.idle (Sample.generate Sample.idle Sample.runAborted))
  = Some "Interrupted." /\
  diagramCode
    (exec Sample.idle (Sample.generate Sample.idle Sample.runAborted))
  = Some ("```" ++ LF ++ "@startuml" ++ LF ++ "A->B" ++ LF ++ "```").
Proof.
  assert (H : 0 < count is_llmCall (Sample.generate Sample.idle Sample.runAborted))
    by (vm_compute; lia).
  split; [exact H|].
  destruct (generate_interrupted Sample.bigDiagramPrompt Sample.props
              Sample.idle Sample.conversations 5 Sample.runAborted _
              H eq_refl eq_refl)
    as ((H1 & H2 & H3) & _).
  split; [exact H1 | split; [exact H2 | exact (eq_trans H3 eq_refl)]].
Defined.

Lemma commit_without_result_witness :
  diagramCode Sample.idle = None /\
  Sample.commit Sample.idle =
    [SetErrorMessage (Some "Nothing to add to the conversation.")] /\
  count is_storeOrClose (Sample.commit Sample.idle) = 0.
Proof.
  split; [reflexivity|].
  destruct (commit_without_result (Prompt := Sample.Prompt) Sample.props
              Sample.idle (or_introl eq_refl))
    as (H1 & H2 & _).
  split; [exact H1 | exact H2].
Defined.

Lemma unmount_aborts_once_witness :
  abortController Sample.generating = Some 5 /\
  actions (unmount Sample.generating)
  = [Abort 5; SetAbortController (Prompt := Sample.Prompt) None] /\
  count is_abort
    (actions (unmount Sample.generating)
     ++ actions (catchFinally (Prompt := Sample.Prompt) "Loading..."
                   (settled Sample.runAborted)))%list = 1.
Proof.
  split; [reflexivity|].
  destruct (unmount_aborts_once (Prompt := Sample.Prompt) Sample.generating 5
              eq_refl)
    as (H1 & _ & _ & _ & H2).
  split; [exact H1 | exact (H2 "Loading..." (settled Sample.runAborted))].
Defined.

(** C9, as stated, fails on the two values that are not null but falsy:
    an empty result text is refused like an absent one, and a selected
    generator whose id is empty adds nothing to the origin tag. *)
Lemma commit_falsy_values :
  (diagramCode (Sample.completed "" (Some Sample.llm)) = Some "" /\
   Sample.commit (Sample.completed "" (Some Sample.llm)) =
     [SetErrorMessage (Some "Nothing to add to the conversation.")]) /\
  (diagramLlm (Sample.completed "A->B" (Some {| DLLM.id := "" |}))
     = Some {| DLLM.id := "" |} /\
   Sample.commit (Sample.completed "A->B" (Some {| DLLM.id := "" |})) =
     [AppendMessage "conv-1"
        {| DMessage.role := "assistant"; DMessage.text := "A->B";
           DMessage.originLLM := Some "diagram" |};
      OnClose] /\
   "diagram" <> "diagram" ++ "-" ++ "").
Proof. repeat split. discriminate. Qed.

Lemma commit_appends_witness :
  abortController Sample.generating = Some 5 /\
  diagramCode Sample.generating = Some "Loading..." /\
  Sample.commit Sample.generating =
    [AppendMessage "conv-1"
       {| DMessage.role := "assistant"; DMessage.text := "Loading...";
          DMessage.originLLM := Some "diagram-gpt-4" |};
     OnClose] /\
  addToChatDisabled Sample.generating = true.
Proof.
  split; [reflexivity|]. split; [reflexivity|].
  destruct (commit_appends (Prompt := Sample.Prompt) Sample.props
              Sample.generating "Loading..." eq_refl
              ltac:(discriminate))
    as ((origin & H1 & _ & H2) & _ & _ & H3).
  destruct (H2 Sample.llm eq_refl) as (H4 & _).
  split.
  - unfold Sample.commit. rewrite H1, (H4 ltac:(discriminate)). reflexivity.
  - apply H3. discriminate.
Defined.

Lemma generate_silent_success_witness :
  0 < count is_llmCall (Sample.generate Sample.idle Sample.runSilent) /\
  diagramCode
    (exec Sample.idle (Sample.generate Sample.idle Sample.runSilent))
  = Some "Loading..." /\
  addToChatDisabled
    (exec Sample.idle (Sample.generate Sample.idle Sample.runSilent)) = false.
Proof.
  assert (H : 0 < count is_llmCall (Sample.generate Sample.idle Sample.runSilent))
    by (vm_compute; lia).
  split; [exact H|].
  destruct (generate_silent_success Sample.bigDiagramPrompt Sample.props
              Sample.idle Sample.conversations 5 Sample.runSilent H eq_refl
              ltac:(repeat constructor))
    as (H1 & H2 & _ & H3 & _).
  split; [exact (eq_trans H1 (f_equal Some H2)) | exact H3].
Defined.

(** * Further properties of the text-repair function *)

Lemma startsWith_split (p s : string) :
  startsWith p s = true -> exists s0, s = p ++ s0.
Proof.
  revert s; induction p as [|a p IH]; intros s H.
  - exists s. reflexivity.
  - destruct s as [|b s]; [discriminate H|].
    apply startsWith_cons in H as [-> H].
    destruct (IH s H) as (s0 & ->). exists s0. reflexivity.
Qed.

Lemma scan_nonempty (p r s : string) :
  r <> "" -> s <> "" -> replaceAll_scan p r 0 s <> "".
Proof.
  intros Hr Hs. destruct s as [|c s]; [congruence|].
  cbn [replaceAll_scan]. destruct (startsWith p (String c s)).
  - destruct r; [congruence | discriminate].
  - discriminate.
Qed.

(** Units that differ from the first unit of the pattern are copied. *)
Lemma scan_copy_free (a : ascii) (p' r x v : string) :
  includes (String a "") x = false ->
  replaceAll_scan (String a p') r 0 (x ++ v)
  = x ++ replaceAll_scan (String a p') r 0 v.
Proof.
  induction x as [|c x IH]; intros H; [reflexivity|].
  cbn [includes startsWith] in H. apply orb_false_iff in H as [Hc H].
  rewrite andb_true_r in Hc.
  cbn [append replaceAll_scan startsWith]. rewrite Hc. cbn [andb].
  now rewrite IH.
Qed.

Lemma includes_single_append (a : ascii) (x y : string) :
  includes (String a "") (x ++ y)
  = includes (String a "") x || includes (String a "") y.
Proof.
  induction x as [|c x IH].
  - cbn. destruct (includes (String a "") y); reflexivity.
  - cbn [append includes startsWith]. rewrite IH.
    rewrite !andb_true_r. now rewrite orb_assoc.
Qed.

(** One pass over a text that does not begin with the block opener
    either leaves it as it is, or makes it shorter. *)
Lemma hotFix_unfenced_cases (t : string) :
  startsWith START_MARK t = false ->
  (includes MINDMAP_UML_END t = false /\ includes EMPTY_FENCE t = false /\
   hotFixDiagramCode t = t) \/
  String.length (hotFixDiagramCode t) < String.length t.
Proof.
  intros H. rewrite (hotFix_unfenced t H).
  assert (L2 : forall x, String.length (replaceAll_scan EMPTY_FENCE FENCE 0 x)
                         <= String.length x).
  { intros x. pose proof (scan_length_le EMPTY_FENCE FENCE x 0) as L.
    simpl in L. lia. }
  destruct (includes MINDMAP_UML_END t) eqn:I1.
  - right.
    pose proof (scan_length_lt MINDMAP_UML_END MINDMAP_END t) as L1.
    simpl in L1. specialize (L1 ltac:(lia) I1).
    specialize (L2 (replaceAll_scan MINDMAP_UML_END MINDMAP_END 0 t)). lia.
  - rewrite (scan_no_occurrence MINDMAP_UML_END MINDMAP_END t I1).
    destruct (includes EMPTY_FENCE t) eqn:I2.
    + right. pose proof (scan_length_lt EMPTY_FENCE FENCE t) as L.
      simpl in L. apply L; [lia | exact I2].
    + left. repeat split.
      apply (scan_no_occurrence EMPTY_FENCE FENCE t I2).
Qed.

Lemma hotFix_length_le_unfenced (t : string) :
  startsWith START_MARK t = false ->
  String.length (hotFixDiagramCode t) <= String.length t.
Proof.
  intros H. destruct (hotFix_unfenced_cases t H) as [(_ & _ & ->)|L]; lia.
Qed.

(** X1: the repaired text never begins with the block opener ["@start"];
    when the input does, the output begins with the fence line followed
    by the opener. *)
Theorem hotFix_opener :
  (forall s, startsWith "@start" (hotFixDiagramCode s) = false) /\
  (forall s, startsWith "@start" s = true ->
             startsWith ("```" ++ LF ++ "@start") (hotFixDiagramCode s) = true).
Proof.
  split; [exact hotFix_not_startsWith|].
  intros s H. destruct (startsWith_split _ _ H) as (s0 & ->).
  unfold hotFixDiagramCode, START_MARK. rewrite H.
  rewrite !replaceAll_nonempty by auto with hotfix.
  reflexivity.
Qed.

Lemma hotFix_opener_witness :
  startsWith "@start" ("@startmindmap" ++ LF ++ "* root") = true /\
  startsWith ("```" ++ LF ++ "@start")
    (hotFixDiagramCode ("@startmindmap" ++ LF ++ "* root")) = true.
Proof.
  split; [reflexivity|].
  exact (proj2 hotFix_opener ("@startmindmap" ++ LF ++ "* root") eq_refl).
Defined.

(** X2: the repair adds at most the eight units of the fence to a text,
    and never lengthens a text that does not begin with the opener. *)
Theorem hotFix_length (s : string) :
  String.length (hotFixDiagramCode s) <= String.length s + 8 /\
  (startsWith "@start" s = false ->
   String.length (hotFixDiagramCode s) <= String.length s).
Proof.
  split; [|apply hotFix_length_le_unfenced].
  destruct (startsWith "@start" s) eqn:E;
    [|apply hotFix_length_le_unfenced in E; lia].
  unfold hotFixDiagramCode, START_MARK. rewrite E.
  rewrite !replaceAll_nonempty by auto with hotfix.
  set (t := "```" ++ LF ++ s ++ LF ++ "```").
  pose proof (scan_length_le EMPTY_FENCE FENCE
                (replaceAll_scan MINDMAP_UML_END MINDMAP_END 0 t) 0
                ltac:(simpl; lia)) as L2.
  pose proof (scan_length_le MINDMAP_UML_END MINDMAP_END t 0
                ltac:(simpl; lia)) as L1.
  assert (Lt : String.length t = String.length s + 8).
  { subst t. rewrite !length_append. simpl. lia. }
  lia.
Qed.

Lemma hotFix_length_witness :
  startsWith "@start" "graph TD; A-->B" = false /\
  String.length (hotFixDiagramCode "graph TD; A-->B")
  <= String.length "graph TD; A-->B".
Proof.
  split; [reflexivity|].
  exact (proj2 (hotFix_length "graph TD; A-->B") eq_refl).
Defined.

(** X3: the repaired text is empty only for the empty text. *)
Theorem hotFix_empty_iff (s : string) :
  hotFixDiagramCode s = "" <-> s = "".
Proof.
  split; [|intros ->; reflexivity].
  intros H. destruct s as [|c s]; [reflexivity|]. exfalso.
  unfold hotFixDiagramCode in H.
  rewrite !replaceAll_nonempty in H by auto with hotfix.
  revert H. apply scan_nonempty; [discriminate|].
  apply scan_nonempty; [discriminate|].
  destruct (startsWith START_MARK (String c s)); discriminate.
Qed.

(** X4: the texts the repair leaves untouched are exactly those that do
    not begin with the opener and hold neither ["@endmindmap\n@enduml"]
    nor ["```\n```"]. *)
Theorem hotFix_fixed_point_iff (s : string) :
  hotFixDiagramCode s = s <->
  startsWith "@start" s = false /\
  includes ("@endmindmap" ++ LF ++ "@enduml") s = false /\
  includes ("```" ++ LF ++ "```") s = false.
Proof.
  split.
  - intros H. destruct (startsWith "@start" s) eqn:E.
    + pose proof (hotFix_not_startsWith s) as N. rewrite H in N.
      unfold START_MARK in N. congruence.
    + destruct (hotFix_unfenced_cases s E) as [(I1 & I2 & _)|L].
      * auto.
      * rewrite H in L. lia.
  - intros (E & I1 & I2). rewrite (hotFix_unfenced s E).
    rewrite (scan_no_occurrence MINDMAP_UML_END MINDMAP_END s I1).
    apply (scan_no_occurrence EMPTY_FENCE FENCE s I2).
Qed.

Lemma hotFix_fixed_point_iff_witness :
  hotFixDiagramCode ("```mermaid" ++ LF ++ "graph TD; A-->B" ++ LF ++ "```")
  = "```mermaid" ++ LF ++ "graph TD; A-->B" ++ LF ++ "```".
Proof.
  apply (proj2 (hotFix_fixed_point_iff _)). repeat split.
Defined.

Lemma hotFix_iterate (m : nat) :
  forall t, String.length t <= m -> startsWith START_MARK t = false ->
  exists n, n <= String.length t /\
    hotFixDiagramCode (Nat.iter n hotFixDiagramCode t)
    = Nat.iter n hotFixDiagramCode t.
Proof.
  induction m as [|m IH]; intros t Lm E.
  - exists 0. split; [lia|].
    destruct t; [reflexivity | simpl in Lm; lia].
  - destruct (hotFix_unfenced_cases t E) as [(_ & _ & F)|L].
    + exists 0. split; [lia | exact F].
    + destruct (IH (hotFixDiagramCode t)) as (n & Hn & F);
        [lia | apply hotFix_not_startsWith |].
      exists (S n). split; [lia|].
      rewrite Nat.iter_succ_r. exact F.
Qed.

(** X5: repeated repair settles: after the first application, at most as
    many further applications as the repaired text has units reach a
    text that the function leaves unchanged. *)
Theorem hotFix_settles (s : string) :
  exists n, n <= String.length (hotFixDiagramCode s) /\
    hotFixDiagramCode (Nat.iter (S n) hotFixDiagramCode s)
    = Nat.iter (S n) hotFixDiagramCode s.
Proof.
  destruct (hotFix_iterate (String.length (hotFixDiagramCode s))
              (hotFixDiagramCode s) (le_n _) (hotFix_not_startsWith s))
    as (n & Hn & F).
  exists n. split; [exact Hn|]. rewrite Nat.iter_succ_r. exact F.
Qed.

Lemma scan_copy_nomatch (p r : string) (c : ascii) (s : string) :
  startsWith p (String c s) = false ->
  replaceAll_scan p r 0 (String c s) = String c (replaceAll_scan p r 0 s).
Proof. intros H. cbn [replaceAll_scan]. now rewrite H. Qed.

Lemma includes_cons_nomatch (p : string) (c : ascii) (s : string) :
  startsWith p (String c s) = false ->
  includes p (String c s) = includes p s.
Proof. intros H. cbn [includes]. now rewrite H. Qed.

(** X6: the mistake the function is written for.  A diagram that begins
    with the opener, holds no backtick and no ["@endmindmap\n@enduml"]
    in its body, and is closed by ["@endmindmap\n@enduml"], comes out
    fenced and closed by ["@endmindmap"] alone. *)
Theorem hotFix_mindmap (body : string) :
  includes "`" body = false ->
  includes ("@endmindmap" ++ LF ++ "@enduml") body = false ->
  hotFixDiagramCode ("@start" ++ body ++ "@endmindmap" ++ LF ++ "@enduml")
  = "```" ++ LF ++ "@start" ++ body ++ "@endmindmap" ++ LF ++ "```".
Proof.
  intros Ht Hm.
  unfold hotFixDiagramCode, START_MARK. rewrite startsWith_append.
  rewrite !replaceAll_nonempty by auto with hotfix.
  assert (E1 :
    replaceAll_scan MINDMAP_UML_END MINDMAP_END 0
      ("```" ++ LF ++ ("@start" ++ body ++ "@endmindmap" ++ LF ++ "@enduml")
         ++ LF ++ "```")
    = ("```" ++ LF ++ "@start" ++ body) ++ MINDMAP_END ++ LF ++ "```").
  { replace ("```" ++ LF ++ ("@start" ++ body ++ "@endmindmap" ++ LF ++ "@enduml")
               ++ LF ++ "```")
      with (("```" ++ LF ++ "@start" ++ body) ++ MINDMAP_UML_END ++ LF ++ "```")
      by (unfold MINDMAP_UML_END; now rewrite !append_assoc).
    rewrite scan_unbordered; [| discriminate | reflexivity | lia].
    rewrite scan_no_occurrence; [reflexivity|].
    unfold LF. cbn [append].
    rewrite !includes_cons_nomatch by reflexivity. exact Hm. }
  rewrite E1. clear E1.
  unfold EMPTY_FENCE, FENCE, MINDMAP_END, LF. cbn [append].
  rewrite !scan_copy_nomatch by reflexivity.
  rewrite (scan_copy_free "`" _ _ body _ Ht).
  rewrite !scan_copy_nomatch by reflexivity.
  reflexivity.
Qed.

Lemma hotFix_mindmap_witness :
  hotFixDiagramCode
    ("@start" ++ ("mindmap" ++ LF ++ "* Login" ++ LF ++ "** Token" ++ LF)
       ++ "@endmindmap" ++ LF ++ "@enduml")
  = "```" ++ LF ++ "@start"
      ++ ("mindmap" ++ LF ++ "* Login" ++ LF ++ "** Token" ++ LF)
      ++ "@endmindmap" ++ LF ++ "```".
Proof.
  apply (hotFix_mindmap
           ("mindmap" ++ LF ++ "* Login" ++ LF ++ "** Token" ++ LF));
    reflexivity.
Defined.

Lemma hotFix_nonempty (s : string) : s <> "" -> hotFixDiagramCode s <> "".
Proof.
  intros Hs. unfold hotFixDiagramCode.
  rewrite !replaceAll_nonempty by auto with hotfix.
  apply scan_nonempty; [discriminate|].
  apply scan_nonempty; [discriminate|].
  destruct (startsWith START_MARK s); [|exact Hs].
  discriminate.
Qed.

Lemma truthy_nonempty (s : string) : s <> "" -> truthy (Some s) = true.
Proof. destruct s; [congruence | reflexivity]. Qed.

(** * Further properties of the dialog *)

Section DialogSessions.

Context {DiagramType DiagramLanguage Prompt : Type}.
Variable bigDiagramPrompt :
  DiagramType -> DiagramLanguage -> string -> string -> string -> Prompt.

Local Abbreviation State := (DialogState DiagramType DiagramLanguage).
Local Abbreviation Trace := (list (Action Prompt)).
Local Abbreviation generate := (handleGenerateNew bigDiagramPrompt).
Local Abbreviation commit :=
  (@handleInsertAndClose DiagramType DiagramLanguage Prompt).
Local Abbreviation click := (generateButtonOnClick bigDiagramPrompt).
Local Abbreviation target props conversations :=
  (find (fun c => DConversation.id c =? conversationId props) conversations).
Local Abbreviation upTo run before :=
  {| updates := before; settled := settled run |}.

Implicit Types (st : State) (tr : Trace) (props : DiagramConfig)
  (run : StreamRun).

(** No action touches the options, the selection or the instruction. *)
Lemma exec_keeps st (l : Trace) :
  showOptions (exec st l) = showOptions st /\
  diagramType (exec st l) = diagramType st /\
  diagramLanguage (exec st l) = diagramLanguage st /\
  customInstruction (exec st l) = customInstruction st /\
  diagramLlm (exec st l) = diagramLlm st.
Proof.
  revert st; induction l as [|a l IH]; intros st; [repeat split|].
  cbn [exec fold_left]. destruct (IH (apply st a)) as (H1 & H2 & H3 & H4 & H5).
  unfold exec in *. rewrite H1, H2, H3, H4, H5.
  destruct a; repeat split.
Qed.

Lemma deliver_app (d : string) (us vs : list StreamingUpdate.t) :
  actions (deliver Prompt d (us ++ vs)) =
  (actions (deliver Prompt d us)
   ++ actions (deliver Prompt (fst (deliver Prompt d us)) vs))%list.
Proof.
  revert d; induction us as [|u us IH]; intros d; [reflexivity|].
  cbn [deliver app]. rewrite !actions_bind, fst_bind, IH.
  now rewrite app_assoc.
Qed.

(** The callback keeps the state cell equal to the local variable. *)
Lemma deliver_exec st (d : string) (us : list StreamingUpdate.t) :
  diagramCode st = Some d ->
  diagramCode (exec st (actions (deliver Prompt d us)))
  = Some (fst (deliver Prompt d us)).
Proof.
  revert st d; induction us as [|u us IH]; intros st d H; [exact H|].
  cbn [deliver]. rewrite actions_bind, fst_bind, exec_app. apply IH.
  unfold onUpdate.
  destruct (StreamingUpdate.textSoFar u) as [[|c t]|]; cbn; auto.
Qed.

Lemma lastText_nonempty run : lastText run <> "".
Proof.
  unfold lastText.
  assert (H : "Loading..." <> "") by discriminate. revert H.
  generalize "Loading...". induction (updates run) as [|u us IH];
    intros d Hd; [exact Hd|].
  cbn [fold_left]. apply IH.
  destruct (StreamingUpdate.textSoFar u) as [[|c t]|]; cbn; auto.
  discriminate.
Qed.

(** The invocation passes all gates exactly when it issues the call, and
    then the call gets the generator id, the prompt and the controller. *)
Lemma generate_starts props st conversations fresh run
    dType dLanguage llm conv sys :
  abortController st = None ->
  diagramType st = Some dType -> diagramLanguage st = Some dLanguage ->
  diagramLlm st = Some llm ->
  target props conversations = Some conv ->
  hd_error (DConversation.messages conv) = Some sys ->
  DMessage.role sys = "system" ->
  actions (generate props st conversations fresh run) =
  ([SetErrorMessage None; SetDiagramCode (Some "Loading...");
    SetAbortController (Some fresh);
    LlmStreamingChatGenerate (DLLM.id llm)
      (bigDiagramPrompt dType dLanguage (DMessage.text sys) (text props)
         (customInstruction st)) fresh]
   ++ actions (deliver Prompt "Loading..." (updates run))
   ++ actions (catchFinally (lastText run) (settled run)
               : Cmd Prompt unit))%list.
Proof.
  intros Ha Ht Hl Hg Hc Hs Hr.
  unfold handleGenerateNew. rewrite Ha, Ht, Hl, Hg, Hc, Hs, Hr. cbn.
  pose proof (deliver_fst (Prompt := Prompt) (updates run) "Loading...") as Hd.
  fold (lastText run) in Hd.
  destruct (deliver Prompt "Loading..." (updates run)) as [d l].
  cbn in Hd. subst d. cbn.
  destruct (catchFinally (lastText run) (settled run)) as [u l2].
  cbn. now rewrite app_nil_r.
Qed.

Lemma generate_started_inv props st conversations fresh run :
  0 < count is_llmCall (actions (generate props st conversations fresh run)) ->
  abortController st = None /\
  exists dType dLanguage llm conv sys,
    diagramType st = Some dType /\ diagramLanguage st = Some dLanguage /\
    diagramLlm st = Some llm /\
    target props conversations = Some conv /\
    hd_error (DConversation.messages conv) = Some sys /\
    DMessage.role sys = "system".
Proof.
  unfold handleGenerateNew.
  destruct (abortController st) as [h|] eqn:Eabort;
  [| destruct (diagramType st) as [dType|] eqn:Etype;
     [destruct (diagramLanguage st) as [dLanguage|] eqn:Elanguage;
      [destruct (diagramLlm st) as [llm|] eqn:Ellm;
       [destruct (target props conversations) as [conv|] eqn:Econv;
        [destruct (hd_error (DConversation.messages conv)) as [sys|] eqn:Esys;
         [destruct (DMessage.role sys =? "system") eqn:Erole|]|]|]|]|]];
    cbn; try lia.
  intros _. split; [reflexivity|].
  exists dType, dLanguage, llm, conv, sys.
  apply String.eqb_eq in Erole. auto 10.
Qed.

(** The state while the call is pending, when the deliveries [before]
    have been made and the deliveries [after] are still to come. *)
Lemma generate_streaming props st conversations fresh run
    (before after : list StreamingUpdate.t) :
  let tr := actions (generate props st conversations fresh run) in
  0 < count is_llmCall tr ->
  updates run = (before ++ after)%list ->
  exists pre i q,
    tr = (pre
          ++ actions (deliver Prompt (lastText (upTo run before)) after)
          ++ actions (catchFinally (lastText run) (settled run)
                      : Cmd Prompt unit))%list /\
    filter is_llmCall pre = [LlmStreamingChatGenerate i q fresh] /\
    abortController (exec st pre) = Some fresh /\
    diagramCode (exec st pre) = Some (lastText (upTo run before)) /\
    errorMessage (exec st pre) = None.
Proof.
  intros tr H E.
  destruct (generate_started bigDiagramPrompt _ _ _ _ _ H) as (_ & i & q & T).
  fold tr in T.
  assert (F : fst (deliver Prompt "Loading..." before)
              = lastText (upTo run before))
    by apply (deliver_fst (Prompt := Prompt)).
  exists ([SetErrorMessage None; SetDiagramCode (Some "Loading...");
           SetAbortController (Some fresh);
           LlmStreamingChatGenerate i q fresh]
          ++ actions (deliver Prompt "Loading..." before))%list, i, q.
  split; [|split; [|split; [|split]]].
  - rewrite T. rewrite E at 1. rewrite deliver_app, F.
    now rewrite <- !app_assoc.
  - rewrite filter_app.
    pose proof (deliver_count (Prompt := Prompt) is_llmCall before "Loading..."
                  (fun _ => eq_refl)) as C.
    unfold count in C. apply length_zero_iff_nil in C. now rewrite C.
  - rewrite exec_app.
    now rewrite (proj2 (exec_stores _ _ (deliver_actions before _))).
  - rewrite exec_app, <- F. now apply deliver_exec.
  - rewrite exec_app.
    now rewrite (proj1 (exec_stores _ _ (deliver_actions before _))).
Qed.

Lemma filter_llmCall_deliver (d : string) (us : list StreamingUpdate.t) :
  filter is_llmCall (actions (deliver Prompt d us)) = [].
Proof.
  pose proof (deliver_count (Prompt := Prompt) is_llmCall us d
                (fun _ => eq_refl)) as C.
  unfold count in C. now apply length_zero_iff_nil in C.
Qed.

Lemma filter_llmCall_catchFinally (d : string) (o : Settled) :
  filter is_llmCall (actions (catchFinally d o : Cmd Prompt unit)) = [].
Proof. destruct o; reflexivity. Qed.

(** X7: [handleGenerateNew] issues the streaming call exactly when no
    generation is in flight, a type, a syntax and a generator are
    selected, the store holds a conversation with the dialog's
    conversation id, and the first message of the first such conversation
    has role 'system'; the one call it then issues gets the id of the
    selected generator, the prompt built from the selection, that
    message's text, the subject and the custom instruction, and the
    signal of the new controller. *)
Theorem generate_issues_call props st conversations fresh run :
  let tr := actions (generate props st conversations fresh run) in
  (0 < count is_llmCall tr <->
   abortController st = None /\
   exists dType dLanguage llm conv sys,
     diagramType st = Some dType /\ diagramLanguage st = Some dLanguage /\
     diagramLlm st = Some llm /\
     target props conversations = Some conv /\
     hd_error (DConversation.messages conv) = Some sys /\
     DMessage.role sys = "system") /\
  (forall dType dLanguage llm conv sys,
     abortController st = None ->
     diagramType st = Some dType -> diagramLanguage st = Some dLanguage ->
     diagramLlm st = Some llm ->
     target props conversations = Some conv ->
     hd_error (DConversation.messages conv) = Some sys ->
     DMessage.role sys = "system" ->
     filter is_llmCall tr =
     [LlmStreamingChatGenerate (DLLM.id llm)
        (bigDiagramPrompt dType dLanguage (DMessage.text sys) (text props)
           (customInstruction st)) fresh]).
Proof.
  intros tr.
  assert (S : forall dType dLanguage llm conv sys,
     abortController st = None ->
     diagramType st = Some dType -> diagramLanguage st = Some dLanguage ->
     diagramLlm st = Some llm ->
     target props conversations = Some conv ->
     hd_error (DConversation.messages conv) = Some sys ->
     DMessage.role sys = "system" ->
     filter is_llmCall tr =
     [LlmStreamingChatGenerate (DLLM.id llm)
        (bigDiagramPrompt dType dLanguage (DMessage.text sys) (text props)
           (customInstruction st)) fresh]).
  { intros dT dL llm conv sys Ha Ht Hl Hg Hc Hs Hr. subst tr.
    rewrite (generate_starts props st conversations fresh run
               dT dL llm conv sys Ha Ht Hl Hg Hc Hs Hr).
    rewrite !filter_app, filter_llmCall_deliver, filter_llmCall_catchFinally.
    reflexivity. }
  split; [split|exact S].
  - apply generate_started_inv.
  - intros (Ha & dT & dL & llm & conv & sys & Ht & Hl & Hg & Hc & Hs & Hr).
    unfold count. rewrite (S dT dL llm conv sys Ha Ht Hl Hg Hc Hs Hr).
    simpl. lia.
Qed.

(** X8: each delivery replaces the result, it is not appended: while the
    call is pending, after a delivery with a non-empty text followed only
    by deliveries without text, the result cell holds exactly that text,
    the cancel handle is the controller handed to the call, and no error
    message is set. *)
Theorem generate_while_streaming props st conversations fresh run
    (earlier later after : list StreamingUpdate.t)
    (c : ascii) (t : string) :
  let tr := actions (generate props st conversations fresh run) in
  0 < count is_llmCall tr ->
  updates run =
    ((earlier ++ {| StreamingUpdate.textSoFar := Some (String c t) |} :: later)
       ++ after)%list ->
  Forall (fun u => truthy (StreamingUpdate.textSoFar u) = false) later ->
  exists pre,
    tr = (pre ++ actions (deliver Prompt (String c t) after)
              ++ actions (catchFinally (lastText run) (settled run)
                          : Cmd Prompt unit))%list /\
    (exists i q, filter is_llmCall pre = [LlmStreamingChatGenerate i q fresh]) /\
    diagramCode (exec st pre) = Some (String c t) /\
    abortController (exec st pre) = Some fresh /\
    errorMessage (exec st pre) = None.
Proof.
  intros tr H E F.
  destruct (generate_streaming props st conversations fresh run _ _ H E)
    as (pre & i & q & T & C & Ha & Hd & He).
  assert (L : lastText
                (upTo run (earlier ++
                   {| StreamingUpdate.textSoFar := Some (String c t) |} :: later))
              = String c t)
    by (apply (lastText_last _ earlier later c t); [reflexivity | exact F]).
  rewrite L in T, Hd. exists pre. eauto 10.
Qed.

(** X9: what is on screen while the call is pending.  The spinner is
    shown when the options are hidden and the streamed text when they are
    shown, never both and never the divider; "Add To Chat" is disabled;
    the button reads "Stop", a click on it calls [abort()] on the
    controller handed to the call and starts nothing, and
    [handleGenerateNew] of that render does nothing. *)
Theorem streaming_view props st conversations fresh run
    (before after : list StreamingUpdate.t) :
  let tr := actions (generate props st conversations fresh run) in
  0 < count is_llmCall tr ->
  updates run = (before ++ after)%list ->
  exists pre,
    tr = (pre ++ actions (deliver Prompt (lastText (upTo run before)) after)
              ++ actions (catchFinally (lastText run) (settled run)
                          : Cmd Prompt unit))%list /\
    render (exec st pre) =
      {| optionsGrid := showOptions st;
         errorBanner := None;
         progress := negb (showOptions st);
         renderedText :=
           if showOptions st then Some (lastText (upTo run before)) else None;
         divider := false;
         addDisabled := true;
         generateDisabled := false;
         generateLabel := "Stop" |} /\
    (forall conversations' fresh' run',
        actions (click props (exec st pre) conversations' fresh' run')
        = [Abort fresh]) /\
    (forall conversations' fresh' run',
        actions (generate props (exec st pre) conversations' fresh' run') = []).
Proof.
  intros tr H E.
  destruct (generate_streaming props st conversations fresh run _ _ H E)
    as (pre & i & q & T & C & Ha & Hd & He).
  destruct (generate_started_inv _ _ _ _ _ H)
    as (_ & dT & dL & llm & conv & sys & _ & _ & Hg & _).
  destruct (exec_keeps st pre) as (Ko & _ & _ & _ & Kl).
  exists pre. split; [exact T|]. split; [|split].
  - unfold render, addToChatDisabled. rewrite Ha, Hd, He, Ko, Kl, Hg.
    rewrite (truthy_nonempty _ (lastText_nonempty _)).
    cbn. destruct (showOptions st); reflexivity.
  - intros. unfold generateButtonOnClick. now rewrite Ha.
  - intros. unfold handleGenerateNew. now rewrite Ha.
Qed.

(** X10: what is on screen once the call has settled, in whatever way:
    the repaired last text is shown, never the divider or the spinner,
    "Add To Chat" is enabled, the button reads "Regenerate", and the error
    banner shows the message of the catch block when it is non-empty and
    nothing after a success, whatever error was shown before. *)
Theorem settled_view props st conversations fresh run :
  let tr := actions (generate props st conversations fresh run) in
  0 < count is_llmCall tr ->
  render (exec st tr) =
    {| optionsGrid := showOptions st;
       errorBanner :=
         match settled run with
         | Resolved => None
         | Rejected error =>
             if truthy (catchMessage error) then catchMessage error else None
         end;
       progress := false;
       renderedText := Some (hotFixDiagramCode (lastText run));
       divider := false;
       addDisabled := false;
       generateDisabled := false;
       generateLabel := "Regenerate" |}.
Proof.
  intros tr H.
  destruct (generate_started_exec bigDiagramPrompt _ _ _ _ _ H)
    as (Hd & Ha & He).
  destruct (generate_started_inv _ _ _ _ _ H)
    as (_ & dT & dL & llm & conv & sys & _ & _ & Hg & _).
  destruct (exec_keeps st tr) as (Ko & _ & _ & _ & Kl).
  fold tr in Hd, Ha, He.
  unfold render, addToChatDisabled. rewrite Ha, Hd, He, Ko, Kl, Hg.
  rewrite (truthy_nonempty _ (hotFix_nonempty _ (lastText_nonempty run))).
  cbn. destruct (showOptions st), (settled run); reflexivity.
Qed.

(** X11: a rejection whose error is not named 'AbortError' surfaces the
    error's own message, unchanged; a rejection with [null] or
    [undefined] leaves no message. *)
Theorem generate_failure_message props st conversations fresh run
    (error : option JsError.t) :
  let tr := actions (generate props st conversations fresh run) in
  0 < count is_llmCall tr ->
  settled run = Rejected error ->
  (forall e, error = Some e -> JsError.name e <> Some "AbortError" ->
             errorMessage (exec st tr) = JsError.message e) /\
  (error = None -> errorMessage (exec st tr) = None).
Proof.
  intros tr H Hr.
  destruct (generate_started_exec bigDiagramPrompt _ _ _ _ _ H)
    as (_ & _ & He).
  fold tr in He. rewrite Hr in He. split.
  - intros e -> Hn. rewrite He. unfold catchMessage.
    destruct (JsError.name e) as [n|]; [|reflexivity].
    destruct (String.eqb_spec n "AbortError"); [congruence | reflexivity].
  - intros ->. exact He.
Qed.

(** X12: the error of [handleInsertAndClose] cannot be reached through
    the button: whenever "Add To Chat" is enabled, no generation is in
    flight, the result text is non-empty, and the click appends one
    assistant message with exactly that text and closes the dialog,
    without setting an error. *)
Theorem addToChat_enabled_appends props st :
  addToChatDisabled st = false ->
  abortController st = None /\
  exists code origin,
    diagramCode st = Some code /\ code <> "" /\
    actions (commit props st) =
      [AppendMessage (conversationId props)
         {| DMessage.role := "assistant"; DMessage.text := code;
            DMessage.originLLM := Some origin |};
       OnClose].
Proof.
  unfold addToChatDisabled. intros H.
  apply orb_false_iff in H as [Hc Ha].
  destruct (abortController st); [discriminate Ha|]. split; [reflexivity|].
  destruct (diagramCode st) as [[|c t]|] eqn:E; try discriminate Hc.
  eexists (String c t), _. split; [reflexivity|]. split; [discriminate|].
  rewrite (commit_truthy (Prompt := Prompt) props st c t E). reflexivity.
Qed.


(** X14: the two handlers keep to their own effects.  [handleGenerateNew]
    never appends to the store, never closes the dialog, never calls
    [abort()], and issues at most one streaming call; and
    [handleInsertAndClose] never calls the streaming service or
    [abort()], and leaves the result text and the cancel handle as they
    are. *)
Theorem handlers_effects props st conversations fresh run :
  let tr := actions (generate props st conversations fresh run) in
  let tc := actions (commit props st) in
  count is_storeOrClose tr = 0 /\ count is_abort tr = 0 /\
  count is_llmCall tr <= 1 /\
  count is_llmCall tc = 0 /\ count is_abort tc = 0 /\
  diagramCode (exec st tc) = diagramCode st /\
  abortController (exec st tc) = abortController st.
Proof.
  intros tr tc.
  assert (G : count is_storeOrClose tr = 0 /\ count is_abort tr = 0 /\
              count is_llmCall tr <= 1).
  { destruct (Nat.eq_dec (count is_llmCall tr) 0) as [Z|NZ].
    - subst tr. revert Z. unfold handleGenerateNew.
      destruct (abortController st) as [h|] eqn:Eabort;
      [| destruct (diagramType st) as [dType|] eqn:Etype;
         [destruct (diagramLanguage st) as [dLanguage|] eqn:Elanguage;
          [destruct (diagramLlm st) as [llm|] eqn:Ellm;
           [destruct (target props conversations) as [conv|] eqn:Econv;
            [destruct (hd_error (DConversation.messages conv)) as [sys|] eqn:Esys;
             [destruct (DMessage.role sys =? "system") eqn:Erole|]|]|]|]|]];
        cbn; intros Z; try (repeat split; lia).
      exfalso. revert Z.
      destruct (deliver Prompt "Loading..." (updates run)) as [d l]. cbn.
      destruct (catchFinally d (settled run)) as [u l2]. cbn. discriminate.
    - destruct (generate_started bigDiagramPrompt props st conversations
                  fresh run ltac:(fold tr; lia)) as (_ & i & q & T).
      fold tr in T. rewrite T, !count_app.
      rewrite !(deliver_count (Prompt := Prompt)) by reflexivity.
      destruct (settled run); cbn; repeat split; lia. }
  destruct G as (G1 & G2 & G3). repeat split; try assumption;
    subst tc; unfold handleInsertAndClose;
    destruct (diagramCode st) as [[|c t]|] eqn:E; cbn;
    try reflexivity; exact E.
Qed.

End DialogSessions.

(** X15: in every state the parts of the view agree with each other: the
    result box and the divider are never shown together, and when neither
    is shown the spinner is; the spinner is shown only while the button
    reads "Stop", which it does exactly when a cancel handle is set; and
    "Add To Chat" is enabled only when the button reads "Regenerate" and
    the result box shows the result. *)
Theorem render_coherent {DiagramType DiagramLanguage : Type}
    (st : DialogState DiagramType DiagramLanguage) :
  let v := render st in
  (renderedText v <> None -> divider v = false) /\
  (renderedText v = None -> divider v = false -> progress v = true) /\
  (progress v = true -> generateLabel v = "Stop") /\
  (generateLabel v = "Stop" <-> abortController st <> None) /\
  (addDisabled v = false ->
   generateLabel v = "Regenerate" /\ renderedText v = diagramCode st /\
   renderedText v <> None).
Proof.
  unfold render, addToChatDisabled. cbn.
  destruct (diagramCode st) as [[|c t]|], (abortController st) as [h|],
    (showOptions st); cbn; repeat split;
    try discriminate; try congruence; auto.
Qed.

(** ** The further properties on the sample session *)

Lemma hotFix_empty_iff_witness : hotFixDiagramCode "" = "".
Proof. exact (proj2 (hotFix_empty_iff "") eq_refl). Defined.

Lemma generate_issues_call_witness :
  0 < count is_llmCall (Sample.generate Sample.idle Sample.runOk) /\
  filter is_llmCall (Sample.generate Sample.idle Sample.runOk) =
    [LlmStreamingChatGenerate "gpt-4"
       ["auto"; "plantuml"; "You are a helpful assistant.";
        "How does login work?"; ""] 5].
Proof.
  destruct (generate_issues_call Sample.bigDiagramPrompt Sample.props
              Sample.idle Sample.conversations 5 Sample.runOk) as (H1 & H2).
  split.
  - apply (proj2 H1). split; [reflexivity|].
    eexists _, _, _, _, _. repeat split; reflexivity.
  - exact (H2 "auto" "plantuml" Sample.llm _ _ eq_refl eq_refl eq_refl
              eq_refl eq_refl eq_refl eq_refl).
Defined.

Lemma generate_while_streaming_witness :
  0 < count is_llmCall (Sample.generate Sample.idle Sample.runOk) /\
  exists pre,
    Sample.generate Sample.idle Sample.runOk =
      (pre ++ [SetDiagramCode
                 (Some ("```" ++ LF ++ "@startuml" ++ LF ++ "A->B" ++ LF
                          ++ "@enduml" ++ LF ++ "```")%string);
               SetAbortController None])%list /\
    diagramCode (exec Sample.idle pre)
    = Some ("@startuml" ++ LF ++ "A->B" ++ LF ++ "@enduml") /\
    abortController (exec Sample.idle pre) = Some 5.
Proof.
  assert (H : 0 < count is_llmCall (Sample.generate Sample.idle Sample.runOk))
    by (vm_compute; lia).
  split; [exact H|].
  destruct (generate_while_streaming Sample.bigDiagramPrompt Sample.props
              Sample.idle Sample.conversations 5 Sample.runOk
              [Sample.upd ("@startuml" ++ LF ++ "A->B")] [] []
              "@"%char ("startuml" ++ LF ++ "A->B" ++ LF ++ "@enduml")
              H eq_refl (Forall_nil _))
    as (pre & T & _ & Hd & Ha & _).
  exists pre. split; [exact T | split; [exact Hd | exact Ha]].
Defined.

Lemma streaming_view_witness :
  0 < count is_llmCall (Sample.generate Sample.idle Sample.runOk) /\
  exists pre : list (Action Sample.Prompt),
    generateLabel (render (exec Sample.idle pre)) = "Stop" /\
    renderedText (render (exec Sample.idle pre))
    = Some ("@startuml" ++ LF ++ "A->B") /\
    progress (render (exec Sample.idle pre)) = false /\
    actions (generateButtonOnClick Sample.bigDiagramPrompt Sample.props
               (exec Sample.idle pre) Sample.conversations 6 Sample.runOk)
    = [Abort 5].
Proof.
  assert (H : 0 < count is_llmCall (Sample.generate Sample.idle Sample.runOk))
    by (vm_compute; lia).
  split; [exact H|].
  destruct (streaming_view Sample.bigDiagramPrompt Sample.props
              Sample.idle Sample.conversations 5 Sample.runOk
              [Sample.upd ("@startuml" ++ LF ++ "A->B")]
              [Sample.upd ("@startuml" ++ LF ++ "A->B" ++ LF ++ "@enduml")]
              H eq_refl)
    as (pre & _ & V & K & _).
  exists pre. rewrite V. repeat split. apply K.
Defined.

Lemma settled_view_witness :
  0 < count is_llmCall (Sample.generate Sample.idle Sample.runFailed) /\
  render (exec Sample.idle (Sample.generate Sample.idle Sample.runFailed)) =
    {| optionsGrid := true;
       errorBanner := Some "503 Service Unavailable";
       progress := false;
       renderedText := Some "Loading...";
       divider := false;
       addDisabled := false;
       generateDisabled := false;
       generateLabel := "Regenerate" |}.
Proof.
  assert (H : 0 < count is_llmCall (Sample.generate Sample.idle Sample.runFailed))
    by (vm_compute; lia).
  split; [exact H|].
  exact (settled_view Sample.bigDiagramPrompt Sample.props Sample.idle
           Sample.conversations 5 Sample.runFailed H).
Defined.

Lemma generate_failure_message_witness :
  0 < count is_llmCall (Sample.generate Sample.idle Sample.runFailed) /\
  errorMessage (exec Sample.idle (Sample.generate Sample.idle Sample.runFailed))
  = Some "503 Service Unavailable".
Proof.
  assert (H : 0 < count is_llmCall (Sample.generate Sample.idle Sample.runFailed))
    by (vm_compute; lia).
  split; [exact H|].
  destruct (generate_failure_message Sample.bigDiagramPrompt Sample.props
              Sample.idle Sample.conversations 5 Sample.runFailed _ H eq_refl)
    as (F & _).
  apply (F _ eq_refl). discriminate.
Defined.

Lemma addToChat_enabled_appends_witness :
  addToChatDisabled (Sample.completed "A->B" (Some Sample.llm)) = false /\
  exists origin,
    Sample.commit (Sample.completed "A->B" (Some Sample.llm)) =
      [AppendMessage "conv-1"
         {| DMessage.role := "assistant"; DMessage.text := "A->B";
            DMessage.originLLM := Some origin |};
       OnClose].
Proof.
  split; [reflexivity|].
  destruct (addToChat_enabled_appends (Prompt := Sample.Prompt) Sample.props
              (Sample.completed "A->B" (Some Sample.llm)) eq_refl)
    as (_ & code & origin & Hc & _ & T).
  exists origin. injection Hc as <-. exact T.
Defined.


Lemma render_coherent_witness :
  abortController Sample.generating <> None /\
  generateLabel (render Sample.generating) = "Stop" /\
  addDisabled (render (Sample.completed "A->B" (Some Sample.llm))) = false /\
  generateLabel (render (Sample.completed "A->B" (Some Sample.llm)))
  = "Regenerate".
Proof.
  assert (N : abortController Sample.generating <> None) by discriminate.
  split; [exact N|].
  destruct (render_coherent Sample.generating) as (_ & _ & _ & S & _).
  destruct (render_coherent (Sample.completed "A->B" (Some Sample.llm)))
    as (_ & _ & _ & _ & A).
  split; [exact (proj2 S N)|]. split; [reflexivity|].
  exact (proj1 (A eq_refl)).
Defined.
